(** * mailjet: SMS broadcast through the Mailjet gateway

    A shallow embedding of [src/mailjet/__main__.py] and the properties of
    its message analysis (GSM-7 classification, segment counting, the
    message policy) and of its orchestration (recipient lookup, number
    cleaning, the delivery loop).

    Conventions.
    - A Python [str] is a list of Unicode code points ([char := N]); [len] is
      the number of code points, as in Python.
    - Integers are [Z]; Python's [None] is [option]'s [None].
    - [print] and the HTTP POST are recorded, in program order, as [event]s
      of a trace; an exception is the [Raise] outcome of a computation. *)

From Stdlib Require Import ZArith NArith QArith List String Ascii Bool Lia ListSet.
Import ListNotations.
Open Scope Z_scope.

(** ** Python strings *)

Definition char := N.
Definition str := list char.
Definition bytes := list N.

Definition len {A : Type} (s : list A) : Z := Z.of_nat (List.length s).

(** An ASCII literal of the source, as a [str]. *)
Definition py (s : string) : str :=
  map N_of_ascii (list_ascii_of_string s).

Definition chr (i : Z) : char := Z.to_N i.

Definition char_eq_dec : forall a b : char, {a = b} + {a <> b} := N.eq_dec.
Definition str_eq_dec : forall a b : str, {a = b} + {a <> b} :=
  list_eq_dec char_eq_dec.
Definition str_eqb (a b : str) : bool :=
  if str_eq_dec a b then true else false.

(** [s.find(c)] for a one-character [c]: the lowest index of [c] in [s],
    or [-1]. *)
Fixpoint find_from (s : str) (c : char) (i : Z) : Z :=
  match s with
  | [] => -1
  | x :: rest => if N.eqb x c then i else find_from rest c (i + 1)
  end.

Definition str_find (s : str) (c : char) : Z := find_from s c 0.

(** [s.encode('utf-8')], one code point at a time. *)
Definition utf8_encode_char (c : char) : bytes :=
  (if c <? 128 then [c]
   else if c <? 2048 then [192 + c / 64; 128 + c mod 64]
   else if c <? 65536 then
     [224 + c / 4096; 128 + (c / 64) mod 64; 128 + c mod 64]
   else [240 + c / 262144; 128 + (c / 4096) mod 64;
         128 + (c / 64) mod 64; 128 + c mod 64])%N.

Definition utf8_encode (s : str) : bytes := flat_map utf8_encode_char s.

(** [binascii.b2a_hex]: two lower-case hexadecimal digits per byte. *)
Definition hexdigit (n : N) : N :=
  (if n <? 10 then 48 + n else 87 + n)%N.

Definition b2a_hex (b : bytes) : bytes :=
  flat_map (fun x => [hexdigit (x / 16); hexdigit (x mod 16)]%N) b.

(** ** Constants *)

Definition SMS_SIZES : list (Z * Z) :=
  [(160, 70); (306, 134); (459, 201); (612, 268); (765, 335)].

(** The 128 code points of [GSM7_CHARSET], in table order, 16 per line. *)
Definition GSM7_CHARSET : str :=
  [ 64; 163; 36; 165; 232; 233; 249; 236; 242; 199; 10; 216; 248; 13; 197; 229;
    916; 95; 934; 915; 923; 937; 928; 936; 931; 920; 926; 27; 198; 230; 223; 201;
    32; 33; 34; 35; 164; 37; 38; 39; 40; 41; 42; 43; 44; 45; 46; 47;
    48; 49; 50; 51; 52; 53; 54; 55; 56; 57; 58; 59; 60; 61; 62; 63;
    161; 65; 66; 67; 68; 69; 70; 71; 72; 73; 74; 75; 76; 77; 78; 79;
    80; 81; 82; 83; 84; 85; 86; 87; 88; 89; 90; 196; 214; 209; 220; 167;
    191; 97; 98; 99; 100; 101; 102; 103; 104; 105; 106; 107; 108; 109; 110; 111;
    112; 113; 114; 115; 116; 117; 118; 119; 120; 121; 122; 228; 246; 241; 252; 224
  ]%N.

(** The 128 code points of [EXT_CHARSET]; 96 is the backtick that fills
    the undefined positions, 8364 the Euro sign. *)
Definition EXT_CHARSET : str :=
  [ 96; 96; 96; 96; 96; 96; 96; 96; 96; 96; 96; 96; 96; 96; 96; 96;
    96; 96; 96; 96; 94; 96; 96; 96; 96; 96; 96; 96; 96; 96; 96; 96;
    96; 96; 96; 96; 96; 96; 96; 96; 123; 125; 96; 96; 96; 96; 96; 92;
    96; 96; 96; 96; 96; 96; 96; 96; 96; 96; 96; 96; 91; 126; 93; 96;
    124; 96; 96; 96; 96; 96; 96; 96; 96; 96; 96; 96; 96; 96; 96; 96;
    96; 96; 96; 96; 96; 96; 96; 96; 96; 96; 96; 96; 96; 96; 96; 96;
    96; 96; 96; 96; 96; 8364; 96; 96; 96; 96; 96; 96; 96; 96; 96; 96;
    96; 96; 96; 96; 96; 96; 96; 96; 96; 96; 96; 96; 96; 96; 96; 96
  ]%N.

Definition backtick : char := 96%N.
Definition euro : char := 8364%N.

(** ** gsm_encode *)

(** One iteration of the [for c in plaintext] loop, on the pair
    [(chars_omitted, res)]. *)
Definition gsm_encode_step (st : list char * str) (c : char)
  : list char * str :=
  let '(chars_omitted, res) := st in
  let idx := str_find GSM7_CHARSET c in
  if negb (idx =? -1) then (chars_omitted, res ++ [chr idx])
  else
    let idx := str_find EXT_CHARSET c in
    let res := if negb (idx =? -1) then res ++ [chr 27; chr idx] else res in
    (chars_omitted ++ [c], res).

(** The loop: [chars_omitted] and [res] when it ends. *)
Definition gsm_encode_loop (plaintext : str) : list char * str :=
  fold_left gsm_encode_step plaintext ([], []).

Definition gsm_encode (plaintext : str) : list char * bytes :=
  let '(chars_omitted, res) := gsm_encode_loop plaintext in
  (chars_omitted, b2a_hex (utf8_encode res)).

(** ** count_messages *)

(** [enumerate(SMS_SIZES)] from index [idx] on. *)
Fixpoint count_messages_from (sizes : list (Z * Z)) (idx : Z)
  (num_characters : Z) (mode : string) : option Z :=
  match sizes with
  | [] => None
  | (gsm7, utf16) :: rest =>
      if String.eqb mode "gsm7" then
        if gsm7 >=? num_characters then Some (idx + 1)
        else count_messages_from rest (idx + 1) num_characters mode
      else
        if utf16 >=? num_characters then Some (idx + 1)
        else count_messages_from rest (idx + 1) num_characters mode
  end.

Definition count_messages (num_characters : Z) (mode : string) : option Z :=
  count_messages_from SMS_SIZES 0 num_characters mode.

(** ** Output, exceptions and the trace *)

Inductive exn : Type :=
| TypeError
| ValueError
| AttributeError
| RecipientsNotFoundException
| UnableToCleanException
| LibraryError (name : string).  (* raised inside openpyxl or requests *)

Inductive result (A : Type) : Type :=
| Return (a : A)
| Raise (e : exn).
Arguments Return {A} a.
Arguments Raise {A} e.

(** The body of one [requests.post]: [data] (as passed to [json.dumps]),
    the URL and the authorization header. *)
Record request : Type := {
  url : str;
  From : option str;
  Text : str;
  To : str;
  Authorization : str
}.

(** What the program prints, one constructor per [print] of the source,
    and the one call that leaves the process ([HttpPost]). *)
Inductive event : Type :=
| UsingSender (sender : str)                         (* run, l.327 *)
| ErrorTooLong                                       (* clean_message, l.264 *)
| HoweverGsm7 (characters_omitted : list char)       (* l.267 *)
| Suggestion (characters_omitted : list char) (savings : Q)  (* l.273 *)
| Concatenated (mode : string) (n : Z)    (* l.284 "gsm7", l.291 "utf16" *)
| SingleMessage (mode : string)           (* l.287 "gsm7", l.294 "utf16" *)
| DryRunPretend (recipient : str)                    (* send_sms, l.98 *)
| HttpPost (req : request)                           (* l.100 *)
| MessageNotSent (recipient : str) (status_code : Z) (content : bytes) (* l.103 *)
| WorkbookRequired                                   (* get_recipients, l.165 *)
| UnanticipatedError                                 (* l.170 *)
| ParseErrorNotice (num : str)                       (* clean_phone_numbers, l.205 *)
| InvalidNumberNotice (num : str)                    (* l.215 *)
| NoRecipientsInFile                                 (* run, l.338 *)
| UnexpectedFileErrors                               (* l.341 *)
| NotParsable                                        (* l.349 *)
| NothingToDo.                                       (* l.358 *)

Definition trace := list event.

(** A computation that prints and may raise. *)
Definition Out (A : Type) : Type := (trace * result A)%type.

Definition ret {A : Type} (a : A) : Out A := ([], Return a).

Definition bind {A B : Type} (m : Out A) (k : A -> Out B) : Out B :=
  match m with
  | (t, Return a) => let '(t', r) := k a in (t ++ t', r)
  | (t, Raise e) => (t, Raise e)
  end.

Definition print (e : event) : Out unit := ([e], Return tt).

Definition raise {A : Type} (e : exn) : Out A := ([], Raise e).

(** [try: m except ...: h e]; a handler re-raises what it does not catch. *)
Definition catch {A : Type} (m : Out A) (h : exn -> Out A) : Out A :=
  match m with
  | (t, Return a) => (t, Return a)
  | (t, Raise e) => let '(t', r) := h e in (t ++ t', r)
  end.

Declare Scope out_scope.
Delimit Scope out_scope with out.
Notation "x <- m ;; k" := (bind m (fun x => k))
  (at level 100, m at next level, right associativity) : out_scope.
Notation "m ;; k" := (bind m (fun _ => k))
  (at level 100, right associativity) : out_scope.
Open Scope out_scope.

(** Truth value of an [Optional[int]]: [None] and [0] are false. *)
Definition truthy_int (n : option Z) : bool :=
  match n with
  | Some n => negb (n =? 0)
  | None => false
  end.

Definition is_not_None {A : Type} (x : option A) : bool :=
  match x with
  | Some _ => true
  | None => false
  end.

(** ** clean_message *)

(** Lines 282-296: the report, then [return True]. [mode] is the local
    variable of that name. *)
Definition report_message (mode : string)
  (num_gsm7_msgs num_utf16_msgs : option Z) : Out bool :=
  (if String.eqb mode "gsm7" then
     match num_gsm7_msgs with
     | Some n =>
         if truthy_int num_gsm7_msgs && (n >? 1)
         then print (Concatenated "gsm7" n)
         else print (SingleMessage "gsm7")
     | None => print (SingleMessage "gsm7")
     end
   else
     match num_utf16_msgs with
     | Some n =>
         if truthy_int num_utf16_msgs && (n >? 1)
         then print (Concatenated "utf16" n)
         else print (SingleMessage "utf16")
     | None => print (SingleMessage "utf16")
     end) ;;
  ret true.

(** [(num_utf16_msgs - num_gsm7_msgs) / num_utf16_msgs], as an exact
    fraction; arithmetic on [None] raises [TypeError]. *)
Definition savings_of (num_gsm7_msgs num_utf16_msgs : option Z) : Out Q :=
  match num_gsm7_msgs, num_utf16_msgs with
  | Some g, Some u => ret (Qmake (u - g) (Z.to_pos u))
  | _, _ => raise TypeError
  end.

Definition clean_message (message : str) (dry_run : bool) : Out bool :=
  let '(characters_omitted, gsm7_msg) := gsm_encode message in
  let num_gsm7_msgs := count_messages (len message) "gsm7" in
  let num_utf16_msgs := count_messages (len message) "utf16" in
  match characters_omitted with
  | _ :: _ =>
      match num_utf16_msgs with
      | None =>
          print ErrorTooLong ;;
          (if dry_run && is_not_None num_gsm7_msgs
           then print (HoweverGsm7 characters_omitted)
           else ret tt) ;;
          ret false
      | Some _ =>
          (if dry_run then
             savings <- savings_of num_gsm7_msgs num_utf16_msgs ;;
             print (Suggestion characters_omitted savings)
           else ret tt) ;;
          report_message "utf16" num_gsm7_msgs num_utf16_msgs
      end
  | [] => report_message "gsm7" num_gsm7_msgs num_utf16_msgs
  end.

(** ** The workbook, as openpyxl presents it

    The program reads a worksheet through [max_column], [max_row],
    [cell(row, column).value] and [iter_rows]; rows and columns count from
    1. *)

(** The value of a cell, and so an entry of a recipient list: a string,
    [None] for a blank cell, or a number ([int] or [float]). Neither
    [None] nor a number has the methods [lower] and [replace]: calling
    them raises [AttributeError]. Dates and times are not modelled. *)
Inductive value : Type :=
| VStr (s : str)
| VNone
| VNum (q : Q).

Record Worksheet : Type := {
  max_row : Z;
  max_column : Z;
  cell_value : Z -> Z -> value
}.

Record Workbook : Type := {
  worksheets : list Worksheet
}.

(** [range(a, b)]. *)
Definition range (a b : Z) : list Z :=
  map (fun k => a + Z.of_nat k) (seq 0 (Z.to_nat (b - a))).

(** [iter_rows(min_row, min_col=c, max_col=c, values_only=True)], with
    [cell[0]] taken of every row. *)
Definition iter_rows_column (sheet : Worksheet) (min_row column : Z)
  : list value :=
  map (fun r => cell_value sheet r column) (range min_row (max_row sheet + 1)).

(** [str.lower()] on the ASCII letters; other code points are kept. *)
Definition lower_char (c : char) : char :=
  (if (65 <=? c) && (c <=? 90) then c + 32 else c)%N.

Definition lower (s : str) : str := map lower_char s.

Definition header_names : list str :=
  [py "sms"; py "cell"; py "mobile"; py "telephone"].

(** [val.lower()]: only a string has the method. *)
Definition value_lower (val : value) : result str :=
  match val with
  | VStr s => Return (lower s)
  | VNone | VNum _ => Raise AttributeError
  end.

(** The inner loop of [find_recipient_data], over the columns [cols]:
    the column found, [None] when the loop ends without one. *)
Fixpoint find_in_columns (sheet : Worksheet) (cols : list Z)
  : result (option Z) :=
  match cols with
  | [] => Return None
  | c :: rest =>
      let val := cell_value sheet 1 c in
      match value_lower val with
      | Raise e => Raise e
      | Return lowered =>
          if existsb (str_eqb lowered) header_names then Return (Some c)
          else find_in_columns sheet rest
      end
  end.

(** The outer loop, over [workbook.worksheets]. *)
Fixpoint find_in_sheets (sheets : list Worksheet)
  : result (option (Worksheet * Z)) :=
  match sheets with
  | [] => Return None
  | sheet :: rest =>
      match find_in_columns sheet (range 1 (max_column sheet)) with
      | Raise e => Raise e
      | Return (Some c) => Return (Some (sheet, c))
      | Return None => find_in_sheets rest
      end
  end.

Definition find_recipient_data (workbook : Workbook)
  : Out (Worksheet * Z) :=
  match find_in_sheets (worksheets workbook) with
  | Raise e => raise e
  | Return (Some found) => ret found
  | Return None => raise RecipientsNotFoundException
  end.

(** Truth value of a [str] or list: empty is false. *)
Definition truthy_list {A : Type} (l : list A) : bool :=
  match l with
  | [] => false
  | _ :: _ => true
  end.

Definition truthy_opt_list {A : Type} (l : option (list A)) : bool :=
  match l with
  | Some l => truthy_list l
  | None => false
  end.

Definition API_URL : str := py "https://api.mailjet.com/v4/sms-send".

(** A transport's answer to one POST: a response, or an exception raised
    inside [requests.post]. *)
Inductive reply : Type :=
| Response (status_code : Z) (content : bytes)
| RequestFails (e : exn).

(** ** The orchestrator

    The collaborators are what the program imports and does not define:
    the [phonenumbers] library, [openpyxl.load_workbook], [requests.post]
    (which acts on the outside world, [World]), the environment lookup
    behind the default sender and [settings.ACCESS_TOKEN]. *)

Section Orchestrator.

Variable World : Type.
Variable requests_post : World -> request -> World * reply.

Variable PhoneNumber : Type.
(** [phonenumbers.parse]; [None] when it raises [NumberParseException]. *)
Variable phonenumbers_parse : str -> option PhoneNumber.
Variable is_valid_number : PhoneNumber -> bool.
(** [phonenumbers.format_number(parsed, Formats.E164)]. *)
Variable format_E164 : PhoneNumber -> str.

Variable load_workbook : str -> result Workbook.
(** [os.getenv('USER', socket.gethostname())]. *)
Variable default_sender : str.
Variable ACCESS_TOKEN : str.

(** *** send_sms *)

Definition make_request (msg : str) (sender : option str) (recipient : str)
  : request :=
  {| url := API_URL;
     From := sender;
     Text := msg;
     To := recipient;
     Authorization := py "Bearer " ++ ACCESS_TOKEN |}.

(** The [for recipient in recipient_list] loop. *)
Fixpoint send_loop (msg : str) (sender : option str) (dry_run : bool)
  (recipient_list : list str) (w : World) : World * Out unit :=
  match recipient_list with
  | [] => (w, ret tt)
  | recipient :: rest =>
      if dry_run then
        let '(w', out) := send_loop msg sender dry_run rest w in
        (w', print (DryRunPretend recipient) ;; out)
      else
        let req := make_request msg sender recipient in
        match requests_post w req with
        | (w1, Response status_code content) =>
            let '(w', out) := send_loop msg sender dry_run rest w1 in
            (w', print (HttpPost req) ;;
                 (if negb (status_code =? 200)
                  then print (MessageNotSent recipient status_code content)
                  else ret tt) ;;
                 out)
        | (w1, RequestFails e) =>
            (w1, print (HttpPost req) ;; raise e)
        end
  end.

Definition send_sms (msg : str) (recipient_list : list str)
  (sender : option str) (dry_run : bool) (w : World) : World * Out unit :=
  send_loop msg sender dry_run recipient_list w.

(** *** get_recipients *)

Definition get_recipients (file_path : option str)
  : Out (option (list value)) :=
  match file_path with
  | None | Some [] => raise ValueError
  | Some path =>
      match load_workbook path with
      | Raise e => raise e
      | Return book =>
          catch
            (found <- find_recipient_data book ;;
             let '(sheet_name, column_num) := found in
             ret (Some (iter_rows_column sheet_name 2 column_num)))
            (fun e =>
               match e with
               | RecipientsNotFoundException =>
                   print WorkbookRequired ;; ret None
               | _ => print UnanticipatedError ;; ret None
               end)
      end
  end.

(** *** clean_phone_numbers *)

Definition LRO : char := 8237%N.  (* U+202D *)

(** [p.replace(LRO, '')], with LRO the character U+202D. *)
Definition strip_LRO (p : str) : str :=
  filter (fun c => negb (N.eqb c LRO)) p.

(** The [for num in phone_list] loop, on [error_found] and
    [cleaned_numbers]; the set keeps one copy of each number. *)
Fixpoint clean_loop (phone_list : list str) (error_found : bool)
  (cleaned_numbers : set str) : Out (bool * set str) :=
  match phone_list with
  | [] => ret (error_found, cleaned_numbers)
  | num :: rest =>
      match phonenumbers_parse num with
      | None =>
          print (ParseErrorNotice num) ;;
          clean_loop rest true cleaned_numbers
      | Some parsed =>
          if is_valid_number parsed then
            clean_loop rest error_found
              (set_add str_eq_dec (format_E164 parsed) cleaned_numbers)
          else
            print (InvalidNumberNotice num) ;;
            clean_loop rest true cleaned_numbers
      end
  end.

(** Line 199, the list comprehension: it stops at the first entry that
    is not a string. *)
Definition value_replace_LRO (p : value) : result str :=
  match p with
  | VStr s => Return (strip_LRO s)
  | VNone | VNum _ => Raise AttributeError
  end.

Fixpoint replace_all_LRO (phone_list : list value) : result (list str) :=
  match phone_list with
  | [] => Return []
  | p :: rest =>
      match value_replace_LRO p with
      | Raise e => Raise e
      | Return stripped =>
          match replace_all_LRO rest with
          | Raise e => Raise e
          | Return l => Return (stripped :: l)
          end
      end
  end.

Definition clean_phone_numbers (phone_list : list value) : Out (set str) :=
  match replace_all_LRO phone_list with
  | Raise e => raise e
  | Return phone_list =>
      final <- clean_loop phone_list false (empty_set str) ;;
      let '(error_found, cleaned_numbers) := final in
      if error_found : bool then raise UnableToCleanException
      else ret cleaned_numbers
  end.

(** *** run *)

(** Lines 334-343: [Some recipients] when the program goes on, [None]
    when it returned at line 343. *)
Definition run_read_file (recipients : option (list value))
  (xlsx_file : option str) : Out (option (option (list value))) :=
  if truthy_opt_list xlsx_file then
    catch
      (recipients <- get_recipients xlsx_file ;;
       (if negb (truthy_opt_list recipients)
        then print NoRecipientsInFile else ret tt) ;;
       ret (Some recipients))
      (fun _ => print UnexpectedFileErrors ;; ret None)
  else ret (Some recipients).

(** Lines 345-352: the cleaned set, [None] after a failure, or the
    empty or missing list left as it is. *)
Definition run_clean (recipients : option (list value))
  : Out (option (list str)) :=
  match recipients with
  | Some ((_ :: _) as l) =>
      catch
        (cleaned <- clean_phone_numbers l ;; ret (Some cleaned))
        (fun e =>
           match e with
           | UnableToCleanException => print NotParsable ;; ret None
           | _ => raise e
           end)
  | Some [] => ret (Some [])
  | None => ret None
  end.

(** Lines 327-352, with [sender] resolved: what [run] does before it
    decides to send. [None] when it returned at line 343, else
    [message_clean] and the final value of [recipients]. *)
Definition run_prepare (sender : str) (message : str)
  (recipients : option (list value)) (xlsx_file : option str)
  (dry_run : bool) : Out (option (bool * option (list str))) :=
  print (UsingSender sender) ;;
  message_clean <- clean_message message dry_run ;;
  read <- run_read_file recipients xlsx_file ;;
  match read with
  | None => ret None
  | Some recipients =>
      recipients <- run_clean recipients ;;
      ret (Some (message_clean, recipients))
  end.

Definition run (message : str) (recipients : option (list value))
  (xlsx_file : option str) (sender : option str) (dry_run : bool)
  (w : World) : World * Out unit :=
  let sender :=
    match sender with
    | None => default_sender
    | Some s => s
    end in
  match run_prepare sender message recipients xlsx_file dry_run with
  | (t, Raise e) => (w, (t, Raise e))
  | (t, Return None) => (w, (t, Return tt))
  | (t, Return (Some (message_clean, recipients))) =>
      if message_clean && truthy_opt_list recipients then
        let rs := match recipients with Some l => l | None => [] end in
        let '(w', out) := send_sms message rs (Some sender) dry_run w in
        (w', (t, Return tt) ;; out)
      else (w, (t, Return tt) ;; print NothingToDo)
  end.

End Orchestrator.

(** ** Specification-side vocabulary *)

(** The POSTs of a trace, in order. *)
Fixpoint posts (t : trace) : list request :=
  match t with
  | [] => []
  | HttpPost req :: rest => req :: posts rest
  | _ :: rest => posts rest
  end.

Definition is_suggestion (e : event) : bool :=
  match e with
  | Suggestion _ _ => true
  | _ => false
  end.

Definition suggestion_emitted (t : trace) : bool := existsb is_suggestion t.

(** Order on segment counts, with "unsendable" ([None]) above every count. *)
Definition segments_le (a b : option Z) : Prop :=
  match a, b with
  | Some x, Some y => x <= y
  | _, None => True
  | None, Some _ => False
  end.

(** The column of [SMS_SIZES] that [count_messages] reads for [mode]. *)
Definition threshold (mode : string) (i : Z) : Z :=
  let '(gsm7, utf16) := nth (Z.to_nat i) SMS_SIZES (0, 0) in
  if String.eqb mode "gsm7" then gsm7 else utf16.

Definition largest_threshold (mode : string) : Z :=
  if String.eqb mode "gsm7" then 765 else 335.

(** The report of a segment count [n]: lines 284 and 291, or 287 and 294. *)
Definition report_event (mode : string) (n : Z) : event :=
  if n >? 1 then Concatenated mode n else SingleMessage mode.

(** What one delivery attempt leaves in the trace, given its answer. *)
Definition attempt_events (req : request) (answer : Z * bytes) : trace :=
  let '(status_code, content) := answer in
  HttpPost req ::
  (if negb (status_code =? 200)
   then [MessageNotSent (To req) status_code content] else []).

(** The events of the delivery loop: attempts, pretended attempts and
    their failure notices. *)
Definition is_delivery (e : event) : bool :=
  match e with
  | HttpPost _ | DryRunPretend _ | MessageNotSent _ _ _ => true
  | _ => false
  end.

Definition delivery_events (t : trace) : trace := filter is_delivery t.

(** A computation that leaves no delivery event. *)
Definition no_delivery {A : Type} (o : Out A) : Prop :=
  delivery_events (fst o) = [].

(** What one answer of the transport leaves in the trace. *)
Definition reply_events (req : request) (answer : reply) : trace :=
  match answer with
  | Response status_code content => attempt_events req (status_code, content)
  | RequestFails _ => [HttpPost req]
  end.

Definition is_response (answer : reply) : bool :=
  match answer with
  | Response _ _ => true
  | RequestFails _ => false
  end.

(** The answers of a transport to the requests [reqs], posted one after
    the other from the world [w], and the world they leave. *)
Fixpoint exchange {World : Type}
  (requests_post : World -> request -> World * reply)
  (reqs : list request) (w : World) : World * list reply :=
  match reqs with
  | [] => (w, [])
  | req :: rest =>
      let '(w1, answer) := requests_post w req in
      let '(w', answers) := exchange requests_post rest w1 in
      (w', answer :: answers)
  end.

Section NumberReports.

Variable PhoneNumber : Type.
Variable phonenumbers_parse : str -> option PhoneNumber.
Variable is_valid_number : PhoneNumber -> bool.

(** An entry fails when, the U+202D characters removed, it does not
    parse or is not a valid number. *)
Definition number_fails (num : str) : bool :=
  match phonenumbers_parse (strip_LRO num) with
  | None => true
  | Some parsed => negb (is_valid_number parsed)
  end.

(** The notice printed for a failing entry. *)
Definition failure_notice (num : str) : event :=
  match phonenumbers_parse (strip_LRO num) with
  | None => ParseErrorNotice (strip_LRO num)
  | Some _ => InvalidNumberNotice (strip_LRO num)
  end.

Definition failure_reports (phone_list : list str) : trace :=
  map failure_notice (filter number_fails phone_list).

End NumberReports.

(** Membership in the two tables, for classifying a character. *)
Definition in_primary (c : char) : bool := existsb (N.eqb c) GSM7_CHARSET.

Definition in_extension_only (c : char) : bool :=
  negb (in_primary c) && existsb (N.eqb c) EXT_CHARSET.

(** The advice of a dry run: lines 267 and 273. *)
Definition is_advice (e : event) : bool :=
  match e with
  | Suggestion _ _ | HoweverGsm7 _ => true
  | _ => false
  end.

(** The recipients to which a trace shows a POST, in order. *)
Definition posted_to (t : trace) : list str := map To (posts t).


Definition is_text (v : value) : bool :=
  match v with
  | VStr _ => true
  | VNone | VNum _ => false
  end.




(** ** Sample collaborators, for closed examples *)

Module Demo.

(** The world counts the POSTs received. *)
Definition World := nat.

Definition alice : str := py "+358401234567".
Definition bob : str := py "+442012341234".
Definition carol : str := py "+12125551212".
Definition malformed : str := py "0401234".

(** A gateway that answers 500 to [bob] and 200 to everyone else. *)
Definition post_status (w : World) (req : request) : World * reply :=
  (S w, if str_eqb (To req) bob then Response 500 (py "busy")
        else Response 200 []).

(** A gateway that cannot be reached when the recipient is [alice]. *)
Definition post_unreachable (w : World) (req : request) : World * reply :=
  (S w, if str_eqb (To req) alice
        then RequestFails (LibraryError "requests.ConnectionError")
        else Response 200 []).

(** A stand-in normalizer: a number parses when it is "+" and digits,
    and is valid from ten digits on. *)
Definition PhoneNumber := str.

Definition is_digit (c : char) : bool := ((48 <=? c) && (c <=? 57))%N.

Definition parse (num : str) : option PhoneNumber :=
  match num with
  | 43%N :: digits => if forallb is_digit digits then Some num else None
  | _ => None
  end.

Definition valid (p : PhoneNumber) : bool := 11 <=? len p.

Definition format (p : PhoneNumber) : str := p.

(** A worksheet given by its rows; a cell outside them is blank. *)
Definition grid_sheet (grid : list (list value)) : Worksheet :=
  {| max_row := len grid;
     max_column := fold_right Z.max 0 (map len grid);
     cell_value := fun r c =>
       nth (Z.to_nat (c - 1)) (nth (Z.to_nat (r - 1)) grid []) VNone |}.

Definition text_sheet (grid : list (list str)) : Worksheet :=
  grid_sheet (map (map VStr) grid).

(** Header "SMS" in the second, and last, column. *)
Definition book_last_column : Workbook :=
  {| worksheets :=
       [text_sheet [[py "Name"; py "SMS"];
                    [py "Alice"; alice];
                    [py "Bob"; bob]]] |}.

(** The same columns, the other way round. *)
Definition book_first_column : Workbook :=
  {| worksheets :=
       [text_sheet [[py "SMS"; py "Name"];
                    [alice; py "Alice"];
                    [bob; py "Bob"]]] |}.

(** A blank header cell before the header "SMS". *)
Definition book_blank_header : Workbook :=
  {| worksheets :=
       [grid_sheet [[VNone; VStr (py "SMS"); VStr (py "Name")];
                    [VNone; VStr alice; VStr (py "Alice")]]] |}.

(** A blank cell in the column of numbers. *)
Definition book_blank_cell : Workbook :=
  {| worksheets :=
       [grid_sheet [[VStr (py "SMS"); VStr (py "Name")];
                    [VStr alice; VStr (py "Alice")];
                    [VNone; VStr (py "Bob")]]] |}.

Definition load (book : Workbook) (path : str) : result Workbook :=
  Return book.

Definition sender : str := py "ops".
Definition token : str := py "secret".

Definition long_ascii : str := repeat 97%N 766.
Definition euros : str := repeat euro 100.
Definition hello : str := py "Hello".
Definition path : str := py "book.xlsx".

(** One malformed number among three valid ones. *)
Definition batch : list str := [alice; malformed; bob; carol].

Definition fails : str -> bool := number_fails PhoneNumber parse valid.

Definition request_to (msg recipient : str) : request :=
  make_request token msg (Some sender) recipient.

Definition send (post : World -> request -> World * reply)
  : str -> list str -> option str -> bool -> World -> World * Out unit :=
  send_sms World post token.

Definition read (book : Workbook)
  : option str -> Out (option (list value)) :=
  get_recipients (load book).

(** A file that cannot be opened. *)
Definition load_missing (path : str) : result Workbook :=
  Raise (LibraryError "FileNotFoundError").

Definition run_loading (loader : str -> result Workbook)
  : str -> option (list value) -> option str -> option str -> bool ->
    World -> World * Out unit :=
  run World post_status PhoneNumber parse valid format loader sender token.

Definition run_with (post : World -> request -> World * reply)
  (book : Workbook)
  : str -> option (list value) -> option str -> option str -> bool ->
    World -> World * Out unit :=
  run World post PhoneNumber parse valid format (load book) sender token.

End Demo.

(** * Properties *)

(** ** Table lookup *)

Lemma find_from_absent (s : str) (c : char) (i : Z) :
  ~ In c s -> find_from s c i = -1.
Proof.
  revert i; induction s as [|x s IH]; intros i Hnot; simpl.
  - reflexivity.
  - destruct (N.eqb_spec x c) as [->|Hne].
    + exfalso; apply Hnot; now left.
    + apply IH; intros Hin; apply Hnot; now right.
Qed.

Lemma find_from_present (s : str) (c : char) (i : Z) :
  In c s ->
  exists k : nat,
    find_from s c i = i + Z.of_nat k /\
    nth_error s k = Some c /\ ~ In c (firstn k s).
Proof.
  revert i; induction s as [|x s IH]; intros i Hin; simpl.
  - destruct Hin.
  - destruct (N.eqb_spec x c) as [->|Hne].
    + exists 0%nat; repeat split; simpl; auto; lia.
    + destruct Hin as [Heq|Hin]; [congruence|].
      destruct (IH (i + 1) Hin) as (k & Hk & Hnth & Hfirst).
      exists (S k); repeat split; simpl; auto.
      * rewrite Hk; lia.
      * intros [Heq|Hin']; [congruence|auto].
Qed.

(** A character of the table is found at its first position, which is a
    valid index; any other character gives [-1]. *)
Lemma str_find_present (s : str) (c : char) :
  In c s ->
  exists idx : Z,
    str_find s c = idx /\ 0 <= idx < len s /\
    nth_error s (Z.to_nat idx) = Some c /\
    ~ In c (firstn (Z.to_nat idx) s).
Proof.
  intros Hin; unfold str_find.
  destruct (find_from_present s c 0 Hin) as (k & Hk & Hnth & Hfirst).
  exists (Z.of_nat k); rewrite Nat2Z.id; repeat split; auto; try lia.
  assert (k < List.length s)%nat by (apply nth_error_Some; congruence).
  unfold len; lia.
Qed.

Lemma str_find_absent (s : str) (c : char) :
  ~ In c s -> str_find s c = -1.
Proof. apply find_from_absent. Qed.

(** ** The classifier *)

(** What one character adds to [chars_omitted] and to [res]. *)
Lemma gsm_encode_step_acc (om : list char) (res : str) (c : char) :
  gsm_encode_step (om, res) c =
  (om ++ fst (gsm_encode_step ([], []) c),
   res ++ snd (gsm_encode_step ([], []) c)).
Proof.
  unfold gsm_encode_step.
  destruct (negb (str_find GSM7_CHARSET c =? -1)); simpl.
  - now rewrite app_nil_r.
  - destruct (negb (str_find EXT_CHARSET c =? -1)); simpl;
      now rewrite ?app_nil_r.
Qed.

Lemma gsm_encode_fold_acc (m : str) (om : list char) (res : str) :
  fold_left gsm_encode_step m (om, res) =
  (om ++ fst (gsm_encode_loop m), res ++ snd (gsm_encode_loop m)).
Proof.
  unfold gsm_encode_loop.
  revert om res; induction m as [|c m IH]; intros om res; cbn [fold_left].
  - cbn [fst snd]; now rewrite !app_nil_r.
  - rewrite gsm_encode_step_acc.
    destruct (gsm_encode_step ([], []) c) as [oc rc]; cbn [fst snd].
    rewrite IH, (IH oc rc); cbn [fst snd].
    now rewrite !app_assoc.
Qed.

(** The loop handles a message piece by piece. *)
Lemma gsm_encode_loop_app (m1 m2 : str) :
  gsm_encode_loop (m1 ++ m2) =
  (fst (gsm_encode_loop m1) ++ fst (gsm_encode_loop m2),
   snd (gsm_encode_loop m1) ++ snd (gsm_encode_loop m2)).
Proof.
  unfold gsm_encode_loop at 1.
  rewrite fold_left_app.
  fold (gsm_encode_loop m1).
  destruct (gsm_encode_loop m1) as [om1 res1]; simpl.
  apply gsm_encode_fold_acc.
Qed.

Lemma gsm_encode_loop_char (m1 m2 : str) (c : char) :
  gsm_encode_loop (m1 ++ c :: m2) =
  (fst (gsm_encode_loop m1) ++ fst (gsm_encode_step ([], []) c)
     ++ fst (gsm_encode_loop m2),
   snd (gsm_encode_loop m1) ++ snd (gsm_encode_step ([], []) c)
     ++ snd (gsm_encode_loop m2)).
Proof.
  rewrite gsm_encode_loop_app.
  change (c :: m2) with ([c] ++ m2).
  rewrite gsm_encode_loop_app.
  reflexivity.
Qed.

Lemma step_primary (c : char) :
  In c GSM7_CHARSET ->
  exists idx : Z,
    0 <= idx < 128 /\
    nth_error GSM7_CHARSET (Z.to_nat idx) = Some c /\
    gsm_encode_step ([], []) c = ([], [chr idx]).
Proof.
  intros Hin.
  destruct (str_find_present _ _ Hin) as (idx & Hfind & Hrange & Hnth & _).
  exists idx; repeat split; auto; try apply Hrange.
  unfold gsm_encode_step; rewrite Hfind.
  destruct (Z.eqb_spec idx (-1)); [lia|reflexivity].
Qed.

Lemma step_extension (c : char) :
  ~ In c GSM7_CHARSET -> In c EXT_CHARSET ->
  exists idx : Z,
    0 <= idx < 128 /\
    nth_error EXT_CHARSET (Z.to_nat idx) = Some c /\
    ~ In c (firstn (Z.to_nat idx) EXT_CHARSET) /\
    gsm_encode_step ([], []) c = ([c], [chr 27; chr idx]).
Proof.
  intros Hnot Hin.
  destruct (str_find_present _ _ Hin) as (idx & Hfind & Hrange & Hnth & Hfirst).
  exists idx; repeat split; auto; try apply Hrange.
  unfold gsm_encode_step.
  rewrite (str_find_absent _ _ Hnot), Hfind; simpl.
  destruct (Z.eqb_spec idx (-1)); [lia|reflexivity].
Qed.

Lemma step_neither (c : char) :
  ~ In c GSM7_CHARSET -> ~ In c EXT_CHARSET ->
  gsm_encode_step ([], []) c = ([c], []).
Proof.
  intros Hnot1 Hnot2.
  unfold gsm_encode_step.
  now rewrite (str_find_absent _ _ Hnot1), (str_find_absent _ _ Hnot2).
Qed.

Lemma str_find_in (s : str) (c : char) :
  str_find s c <> -1 -> In c s.
Proof.
  intros Hfound.
  destruct (in_dec char_eq_dec c s) as [Hin|Hnot]; [assumption|].
  now rewrite (str_find_absent _ _ Hnot) in Hfound.
Qed.

Lemma str_find_not_in (s : str) (c : char) :
  str_find s c = -1 -> ~ In c s.
Proof.
  intros Hfind Hin.
  destruct (str_find_present _ _ Hin) as (idx & Heq & Hrange & _).
  lia.
Qed.

(** Every code the loop emits is below 128: one byte in UTF-8. *)
Lemma gsm_encode_step_codes (c : char) :
  Forall (fun u => (u < 128)%N) (snd (gsm_encode_step ([], []) c)).
Proof.
  assert (Hchr : forall idx, 0 <= idx < 128 -> (chr idx < 128)%N)
    by (intros idx Hidx; unfold chr; lia).
  destruct (in_dec char_eq_dec c GSM7_CHARSET) as [Hin|Hnot].
  - destruct (step_primary c Hin) as (idx & Hidx & _ & ->); simpl.
    repeat constructor; auto.
  - destruct (in_dec char_eq_dec c EXT_CHARSET) as [Hin|Hnot'].
    + destruct (step_extension c Hnot Hin) as (idx & Hidx & _ & _ & ->); simpl.
      repeat constructor; auto.
    + rewrite (step_neither c Hnot Hnot'); constructor.
Qed.

Lemma gsm_encode_loop_codes (m : str) :
  Forall (fun u => (u < 128)%N) (snd (gsm_encode_loop m)).
Proof.
  induction m as [|c m IH].
  - constructor.
  - change (c :: m) with ([] ++ c :: m).
    rewrite gsm_encode_loop_char; cbn [fst snd app gsm_encode_loop fold_left].
    apply Forall_app; split; [apply gsm_encode_step_codes|exact IH].
Qed.

Lemma utf8_encode_ascii (s : str) :
  Forall (fun u => (u < 128)%N) s -> utf8_encode s = s.
Proof.
  unfold utf8_encode.
  induction 1 as [|u s Hu _ IH]; cbn [flat_map].
  - reflexivity.
  - rewrite IH; unfold utf8_encode_char.
    destruct (N.ltb_spec u 128); [reflexivity|lia].
Qed.

Lemma b2a_hex_length (b : bytes) :
  len (b2a_hex b) = 2 * len b.
Proof.
  unfold len, b2a_hex.
  induction b as [|x b IH]; cbn [flat_map app List.length].
  - reflexivity.
  - rewrite !Nat2Z.inj_succ; lia.
Qed.

(** The returned bytes are the hexadecimal form of the codes of [res],
    two digits per code. *)
Lemma gsm_encode_output (m : str) :
  gsm_encode m =
    (fst (gsm_encode_loop m), b2a_hex (snd (gsm_encode_loop m))) /\
  len (snd (gsm_encode m)) = 2 * len (snd (gsm_encode_loop m)).
Proof.
  unfold gsm_encode.
  pose proof (gsm_encode_loop_codes m) as Hcodes.
  destruct (gsm_encode_loop m) as [om res]; cbn [fst snd] in *.
  rewrite (utf8_encode_ascii _ Hcodes).
  split; [reflexivity|apply b2a_hex_length].
Qed.

(** C5. The classifier splits three ways. For a message [m1 ++ c :: m2],
    with the omitted list and the codes of [m1] and [m2] around it:
    a character of the primary alphabet adds nothing to the omitted list
    and exactly one code, its position in the primary table; a character
    only in the extension alphabet is added to the omitted list and adds
    exactly two codes, the escape 27 and its position in the extension
    table; a character in neither table is added to the omitted list and
    adds no code. The encoded output is the hexadecimal form of these
    codes, two digits each. *)
Theorem gsm_encode_three_way (m1 m2 : str) (c : char) :
  let before := gsm_encode_loop m1 in
  let after := gsm_encode_loop m2 in
  let whole := m1 ++ c :: m2 in
  (In c GSM7_CHARSET ->
   exists idx : Z,
     0 <= idx < 128 /\
     nth_error GSM7_CHARSET (Z.to_nat idx) = Some c /\
     gsm_encode_loop whole =
       (fst before ++ fst after, snd before ++ [chr idx] ++ snd after)) /\
  (~ In c GSM7_CHARSET -> In c EXT_CHARSET ->
   exists idx : Z,
     0 <= idx < 128 /\
     nth_error EXT_CHARSET (Z.to_nat idx) = Some c /\
     gsm_encode_loop whole =
       (fst before ++ [c] ++ fst after,
        snd before ++ [chr 27; chr idx] ++ snd after)) /\
  (~ In c GSM7_CHARSET -> ~ In c EXT_CHARSET ->
   gsm_encode_loop whole =
     (fst before ++ [c] ++ fst after, snd before ++ snd after)) /\
  gsm_encode whole =
    (fst (gsm_encode_loop whole), b2a_hex (snd (gsm_encode_loop whole))) /\
  len (snd (gsm_encode whole)) = 2 * len (snd (gsm_encode_loop whole)).
Proof.
  intros before after whole; subst before after whole.
  rewrite gsm_encode_loop_char.
  split; [|split; [|split]].
  - intros Hin.
    destruct (step_primary c Hin) as (idx & Hidx & Hnth & ->).
    exists idx; auto.
  - intros Hnot Hin.
    destruct (step_extension c Hnot Hin) as (idx & Hidx & Hnth & _ & ->).
    exists idx; auto.
  - intros Hnot Hnot'.
    now rewrite (step_neither c Hnot Hnot').
  - rewrite <- gsm_encode_loop_char.
    apply gsm_encode_output.
Qed.

Lemma gsm_encode_three_way_witness :
  ~ In euro GSM7_CHARSET /\ In euro EXT_CHARSET /\
  exists idx : Z,
    0 <= idx < 128 /\
    nth_error EXT_CHARSET (Z.to_nat idx) = Some euro /\
    gsm_encode_loop (py "a" ++ euro :: py "b") =
      (fst (gsm_encode_loop (py "a")) ++ [euro] ++ fst (gsm_encode_loop (py "b")),
       snd (gsm_encode_loop (py "a")) ++ [chr 27; chr idx]
         ++ snd (gsm_encode_loop (py "b"))).
Proof.
  assert (Hnot : ~ In euro GSM7_CHARSET)
    by (apply str_find_not_in; reflexivity).
  assert (Hin : In euro EXT_CHARSET)
    by (apply str_find_in; vm_compute; discriminate).
  split; [exact Hnot|split; [exact Hin|]].
  exact (proj1 (proj2 (gsm_encode_three_way (py "a") (py "b") euro)) Hnot Hin).
Defined.

(** C10. The backtick, which fills the undefined positions of the
    extension table, is extension-encodable: wherever it occurs it is
    added to the omitted list and contributes the escape 27 followed by
    position 0; it is not dropped. *)
Theorem backtick_is_extension_encoded (m1 m2 : str) :
  In backtick EXT_CHARSET /\
  str_find EXT_CHARSET backtick = 0 /\
  gsm_encode_loop (m1 ++ backtick :: m2) =
    (fst (gsm_encode_loop m1) ++ [backtick] ++ fst (gsm_encode_loop m2),
     snd (gsm_encode_loop m1) ++ [chr 27; chr 0]
       ++ snd (gsm_encode_loop m2)) /\
  gsm_encode [backtick] = ([backtick], py "1b00").
Proof.
  split; [now left|].
  split; [reflexivity|].
  split; [|reflexivity].
  now rewrite gsm_encode_loop_char.
Qed.

(** ** The segmentation evaluator *)

(** [count_messages], with the loop over [SMS_SIZES] unrolled. *)
Lemma count_messages_unrolled (c : Z) (mode : string) :
  count_messages c mode =
  let t := threshold mode in
  if t 0 >=? c then Some 1
  else if t 1 >=? c then Some 2
  else if t 2 >=? c then Some 3
  else if t 3 >=? c then Some 4
  else if t 4 >=? c then Some 5
  else None.
Proof.
  unfold count_messages, threshold; cbn.
  destruct (String.eqb mode "gsm7"); reflexivity.
Qed.

Lemma threshold_values (mode : string) :
  let pick (gsm7 utf16 : Z) := if String.eqb mode "gsm7" then gsm7 else utf16 in
  threshold mode 0 = pick 160 70 /\
  threshold mode 1 = pick 306 134 /\
  threshold mode 2 = pick 459 201 /\
  threshold mode 3 = pick 612 268 /\
  threshold mode 4 = pick 765 335.
Proof. repeat split; reflexivity. Qed.

Ltac split_thresholds c :=
  repeat match goal with
         | |- context [?t >=? c] => destruct (Z.geb_spec t c)
         | H : context [?t >=? c] |- _ => destruct (Z.geb_spec t c)
         end.

(** C6. For either mode, the segment count is monotone in the character
    count, with "unsendable" above every count; the evaluator answers
    "unsendable" exactly when the count exceeds the largest threshold of
    the mode (765 or 335); otherwise it answers index+1 for the first
    entry of the table whose threshold for the mode is at least the
    count. *)
Theorem count_messages_monotone_first_fit (mode : string) (c1 c2 : Z) :
  (c1 < c2 ->
   segments_le (count_messages c1 mode) (count_messages c2 mode)) /\
  (count_messages c1 mode = None <-> largest_threshold mode < c1) /\
  (largest_threshold "gsm7" = 765 /\ largest_threshold "utf16" = 335) /\
  (forall n : Z,
     count_messages c1 mode = Some n ->
     1 <= n <= len SMS_SIZES /\
     c1 <= threshold mode (n - 1) /\
     forall j : Z, 0 <= j < n - 1 -> threshold mode j < c1).
Proof.
  rewrite !count_messages_unrolled; cbv zeta.
  destruct (threshold_values mode) as (T0 & T1 & T2 & T3 & T4).
  unfold largest_threshold.
  destruct (String.eqb mode "gsm7");
    (split; [|split; [|split]]).
  all: try (split; reflexivity).
  all: try (intros Hlt; split_thresholds c1; split_thresholds c2;
            simpl; lia).
  all: try (split_thresholds c1; cbv iota; split; intros Hside;
            solve [discriminate | lia | reflexivity | exfalso; lia]).
  all: intros n Hn; change (len SMS_SIZES) with 5;
    split_thresholds c1; cbv iota in Hn; inversion Hn; subst n; clear Hn;
    simpl Z.sub;
    (split; [lia|]); (split; [lia|]);
    intros j Hj;
    assert (Hcases : j = 0 \/ j = 1 \/ j = 2 \/ j = 3) by lia;
    destruct Hcases as [-> | [-> | [-> | ->]]]; lia.
Qed.

Lemma count_messages_monotone_first_fit_witness :
  100 < 200 /\
  segments_le (count_messages 100 "gsm7") (count_messages 200 "gsm7").
Proof.
  split; [lia|].
  apply (proj1 (count_messages_monotone_first_fit "gsm7" 100 200)); lia.
Defined.

(** Whatever fits in UTF-16 segments fits in no more GSM-7 segments. *)
Lemma gsm7_fits_when_utf16_fits (c u : Z) :
  count_messages c "utf16" = Some u ->
  exists g : Z, count_messages c "gsm7" = Some g /\ 1 <= g <= u.
Proof.
  rewrite !count_messages_unrolled; cbv zeta.
  change (threshold "utf16" 0) with 70; change (threshold "utf16" 1) with 134;
  change (threshold "utf16" 2) with 201; change (threshold "utf16" 3) with 268;
  change (threshold "utf16" 4) with 335.
  change (threshold "gsm7" 0) with 160; change (threshold "gsm7" 1) with 306;
  change (threshold "gsm7" 2) with 459; change (threshold "gsm7" 3) with 612;
  change (threshold "gsm7" 4) with 765.
  intros Hu.
  split_thresholds c; cbv iota in *; inversion Hu; subst u; clear Hu;
    try (exfalso; lia);
    eexists; (split; [reflexivity|lia]).
Qed.

(** ** The message policy *)

Lemma report_message_utf16 (g : option Z) (u : Z) :
  1 <= u ->
  report_message "utf16" g (Some u) = ([report_event "utf16" u], Return true).
Proof.
  intros Hu; unfold report_message, report_event, truthy_int.
  change (String.eqb "utf16" "gsm7") with false; cbv iota.
  destruct (Z.eqb_spec u 0); [lia|].
  destruct (u >? 1); reflexivity.
Qed.

Lemma report_message_gsm7 (g : Z) (u : option Z) :
  1 <= g ->
  report_message "gsm7" (Some g) u = ([report_event "gsm7" g], Return true).
Proof.
  intros Hg; unfold report_message, report_event, truthy_int.
  change (String.eqb "gsm7" "gsm7") with true; cbv iota.
  destruct (Z.eqb_spec g 0); [lia|].
  destruct (g >? 1); reflexivity.
Qed.

Lemma count_messages_positive (c : Z) (mode : string) (n : Z) :
  count_messages c mode = Some n -> 1 <= n.
Proof.
  rewrite count_messages_unrolled; cbv zeta; intros Hn.
  split_thresholds c; cbv iota in Hn; inversion Hn; lia.
Qed.

(** [clean_message] always returns; the [TypeError] of line 272 cannot
    occur. *)
Lemma clean_message_returns (message : str) (dry_run : bool) :
  exists sendable : bool,
    snd (clean_message message dry_run) = Return sendable.
Proof.
  unfold clean_message.
  destruct (gsm_encode message) as [[|c om] hex].
  - destruct (count_messages (len message) "gsm7") as [g|] eqn:Hg.
    + rewrite report_message_gsm7 by eauto using count_messages_positive.
      now exists true.
    + now exists true.
  - destruct (count_messages (len message) "utf16") as [u|] eqn:Hu.
    + destruct (gsm7_fits_when_utf16_fits _ _ Hu) as (g & Hg & Hrange).
      rewrite Hg, report_message_utf16 by lia.
      destruct dry_run; now exists true.
    + destruct dry_run, (count_messages (len message) "gsm7");
        now exists false.
Qed.

(** C1, as the code has it. For a message with a non-empty omitted list
    that fits in UTF-16 segments, the dry run always prints the
    suggestion, quoting the omitted characters and the reduction
    (utf16 - gsm7) / utf16, whether or not the GSM-7 count is smaller;
    the GSM-7 count exists and never exceeds the UTF-16 count. Outside a
    dry run no suggestion is printed. *)
Theorem suggestion_whenever_dry_run (message : str) (u : Z) :
  fst (gsm_encode message) <> [] ->
  count_messages (len message) "utf16" = Some u ->
  exists g : Z,
    count_messages (len message) "gsm7" = Some g /\
    1 <= g <= u /\
    clean_message message true =
      ([Suggestion (fst (gsm_encode message)) (Qmake (u - g) (Z.to_pos u));
        report_event "utf16" u], Return true) /\
    suggestion_emitted (fst (clean_message message true)) = true /\
    suggestion_emitted (fst (clean_message message false)) = false.
Proof.
  intros Hom Hu.
  destruct (gsm7_fits_when_utf16_fits _ _ Hu) as (g & Hg & Hrange).
  exists g; split; [exact Hg|split; [exact Hrange|]].
  unfold clean_message.
  destruct (gsm_encode message) as [[|c om] hex]; cbn [fst] in *;
    [congruence|].
  rewrite Hu, Hg, report_message_utf16 by lia.
  repeat split.
  unfold report_event; destruct (u >? 1); reflexivity.
Qed.

Lemma suggestion_whenever_dry_run_witness :
  exists g : Z,
    count_messages (len Demo.euros) "gsm7" = Some g /\
    1 <= g <= 2 /\
    clean_message Demo.euros true =
      ([Suggestion (fst (gsm_encode Demo.euros)) (Qmake (2 - g) (Z.to_pos 2));
        report_event "utf16" 2], Return true) /\
    suggestion_emitted (fst (clean_message Demo.euros true)) = true /\
    suggestion_emitted (fst (clean_message Demo.euros false)) = false.
Proof.
  apply (suggestion_whenever_dry_run Demo.euros 2).
  - vm_compute; discriminate.
  - reflexivity.
Defined.

(** C1, as stated, fails on the message made of one Euro sign: its
    omitted list is not empty, both segment counts are 1, and the dry
    run prints a suggestion (of a reduction of 0). *)
Lemma euro_suggestion_without_reduction :
  fst (gsm_encode [euro]) = [euro] /\
  count_messages (len [euro]) "utf16" = Some 1 /\
  count_messages (len [euro]) "gsm7" = Some 1 /\
  clean_message [euro] true =
    ([Suggestion [euro] (Qmake 0 1); SingleMessage "utf16"], Return true) /\
  ~ (suggestion_emitted (fst (clean_message [euro] true)) = true <-> 1 < 1).
Proof.
  repeat split; try reflexivity.
  intros [Hemitted _].
  assert (Hlt : 1 < 1) by (apply Hemitted; reflexivity).
  lia.
Qed.

Local Opaque count_messages len Z.gtb Z.sub Z.to_pos.

(** C9. Every segment count that [clean_message] reports or uses, in
    either mode, is [count_messages] of the character count of the
    message itself, never of the encoded output. With [g] and [u] the
    GSM-7 and UTF-16 counts of [len message], the whole outcome is fixed
    by the omitted list, [g], [u] and the dry-run flag: the report when
    nothing is omitted; the suggested reduction [(u - g) / u] and the
    report when something is omitted and [u] exists; the length error,
    with the hint exactly when [g] exists, when [u] does not. *)
Theorem segments_from_character_count (message : str) (dry_run : bool) :
  let omitted := fst (gsm_encode message) in
  let counted := len message in
  (omitted = [] ->
   clean_message message dry_run =
     ([match count_messages counted "gsm7" with
       | Some g => report_event "gsm7" g
       | None => SingleMessage "gsm7"
       end], Return true)) /\
  (omitted <> [] ->
   forall u : Z,
     count_messages counted "utf16" = Some u ->
     exists g : Z,
       count_messages counted "gsm7" = Some g /\
       clean_message message dry_run =
         ((if dry_run
           then [Suggestion omitted (Qmake (u - g) (Z.to_pos u))] else [])
            ++ [report_event "utf16" u], Return true)) /\
  (omitted <> [] ->
   count_messages counted "utf16" = None ->
   clean_message message dry_run =
     (ErrorTooLong ::
      (if dry_run && is_not_None (count_messages counted "gsm7")
       then [HoweverGsm7 omitted] else []),
      Return false)).
Proof.
  cbv zeta; unfold clean_message.
  destruct (gsm_encode message) as [[|c om] hex]; cbn [fst].
  - split; [intros _|split; intros Hom; congruence].
    destruct (count_messages (len message) "gsm7") as [g|] eqn:Hg.
    + now rewrite report_message_gsm7
        by (eapply count_messages_positive; exact Hg).
    + reflexivity.
  - split; [intros Hom; discriminate Hom|].
    split; intros _.
    + intros u Hu.
      destruct (gsm7_fits_when_utf16_fits _ _ Hu) as (g & Hg & Hrange).
      exists g; split; [exact Hg|].
      rewrite Hu, Hg, report_message_utf16 by lia.
      destruct dry_run; reflexivity.
    + intros Hu; rewrite Hu.
      destruct dry_run, (count_messages (len message) "gsm7"); reflexivity.
Qed.

Local Transparent count_messages len Z.gtb Z.sub Z.to_pos.

Lemma segments_from_character_count_witness :
  exists g : Z,
    count_messages (len Demo.euros) "gsm7" = Some g /\
    clean_message Demo.euros true =
      ((if true
        then [Suggestion (fst (gsm_encode Demo.euros))
                (Qmake (2 - g) (Z.to_pos 2))] else [])
         ++ [report_event "utf16" 2], Return true).
Proof.
  apply (proj1 (proj2 (segments_from_character_count Demo.euros true))).
  - vm_compute; discriminate.
  - reflexivity.
Defined.

(** A hundred Euro signs: 100 characters, 200 codes once escaped. The
    GSM-7 count used is that of 100 characters. *)
Example euros_counted_by_characters :
  len Demo.euros = 100 /\
  len (snd (gsm_encode_loop Demo.euros)) = 200 /\
  count_messages 100 "gsm7" = Some 1 /\
  count_messages 200 "gsm7" = Some 2 /\
  clean_message Demo.euros true =
    ([Suggestion (repeat euro 100) (Qmake 1 2); Concatenated "utf16" 2],
     Return true).
Proof. repeat split; reflexivity. Qed.

(** ** Traces without delivery events *)

Lemma delivery_events_app (t1 t2 : trace) :
  delivery_events (t1 ++ t2) = delivery_events t1 ++ delivery_events t2.
Proof. apply filter_app. Qed.

Lemma posts_app (t1 t2 : trace) : posts (t1 ++ t2) = posts t1 ++ posts t2.
Proof.
  induction t1 as [|e t1 IH]; [reflexivity|].
  destruct e; simpl; now rewrite ?IH.
Qed.

Lemma no_delivery_no_posts (t : trace) :
  delivery_events t = [] -> posts t = [].
Proof.
  induction t as [|e t IH]; [reflexivity|].
  destruct e; simpl; intros H; try discriminate; auto.
Qed.

Lemma no_delivery_ret {A : Type} (a : A) : no_delivery (ret a).
Proof. reflexivity. Qed.

Lemma no_delivery_raise {A : Type} (e : exn) : no_delivery (@raise A e).
Proof. reflexivity. Qed.

Lemma no_delivery_print (e : event) :
  is_delivery e = false -> no_delivery (print e).
Proof. intros He; unfold no_delivery; simpl; now rewrite He. Qed.

Lemma no_delivery_bind {A B : Type} (m : Out A) (k : A -> Out B) :
  no_delivery m -> (forall a, no_delivery (k a)) -> no_delivery (bind m k).
Proof.
  unfold no_delivery, bind; intros Hm Hk.
  destruct m as [t [a|e]]; [|exact Hm].
  specialize (Hk a); destruct (k a) as [t' r]; cbn [fst] in *.
  now rewrite delivery_events_app, Hm, Hk.
Qed.

Lemma no_delivery_catch {A : Type} (m : Out A) (h : exn -> Out A) :
  no_delivery m -> (forall e, no_delivery (h e)) -> no_delivery (catch m h).
Proof.
  unfold no_delivery, catch; intros Hm Hh.
  destruct m as [t [a|e]]; [exact Hm|].
  specialize (Hh e); destruct (h e) as [t' r]; cbn [fst] in *.
  now rewrite delivery_events_app, Hm, Hh.
Qed.

Ltac quiet :=
  repeat first
    [ apply no_delivery_ret
    | apply no_delivery_raise
    | apply no_delivery_print; reflexivity
    | apply no_delivery_bind; [|intros]
    | apply no_delivery_catch; [|intros]
    | assumption
    | match goal with
      | |- no_delivery (if ?b then _ else _) => destruct b
      | |- no_delivery (match ?x with _ => _ end) => destruct x
      | |- no_delivery (let '(_, _) := ?x in _) => destruct x
      end ].

Lemma no_delivery_clean_message (message : str) (dry_run : bool) :
  no_delivery (clean_message message dry_run).
Proof.
  unfold clean_message, report_message, savings_of.
  destruct (gsm_encode message) as [om hex].
  quiet.
Qed.

Lemma no_delivery_find_recipient_data (book : Workbook) :
  no_delivery (find_recipient_data book).
Proof. unfold find_recipient_data; quiet. Qed.

(** ** The orchestrator *)

Section OrchestratorFacts.

Variable World : Type.
Variable requests_post : World -> request -> World * reply.
Variable PhoneNumber : Type.
Variable phonenumbers_parse : str -> option PhoneNumber.
Variable is_valid_number : PhoneNumber -> bool.
Variable format_E164 : PhoneNumber -> str.
Variable load_workbook : str -> result Workbook.
Variable default_sender : str.
Variable ACCESS_TOKEN : str.

Local Abbreviation send_sms' :=
  (send_sms World requests_post ACCESS_TOKEN).
Local Abbreviation make_request' :=
  (make_request ACCESS_TOKEN).
Local Abbreviation get_recipients' :=
  (get_recipients load_workbook).
Local Abbreviation clean_loop' :=
  (clean_loop PhoneNumber phonenumbers_parse is_valid_number format_E164).
Local Abbreviation clean_phone_numbers' :=
  (clean_phone_numbers PhoneNumber phonenumbers_parse is_valid_number
     format_E164).
Local Abbreviation run_read_file' :=
  (run_read_file load_workbook).
Local Abbreviation run_clean' :=
  (run_clean PhoneNumber phonenumbers_parse is_valid_number format_E164).
Local Abbreviation run_prepare' :=
  (run_prepare PhoneNumber phonenumbers_parse is_valid_number format_E164
     load_workbook).
Local Abbreviation run' :=
  (run World requests_post PhoneNumber phonenumbers_parse is_valid_number
     format_E164 load_workbook default_sender ACCESS_TOKEN).
Local Abbreviation number_fails' :=
  (number_fails PhoneNumber phonenumbers_parse is_valid_number).
Local Abbreviation failure_notice' :=
  (failure_notice PhoneNumber phonenumbers_parse).
Local Abbreviation failure_reports' :=
  (failure_reports PhoneNumber phonenumbers_parse is_valid_number).

(** *** Recipient lookup and cleaning leave no delivery event *)

Lemma no_delivery_get_recipients (file_path : option str) :
  no_delivery (get_recipients' file_path).
Proof.
  unfold get_recipients.
  destruct file_path as [[|c path]|]; quiet;
    apply no_delivery_find_recipient_data.
Qed.

Lemma no_delivery_run_read_file (recipients : option (list value))
  (xlsx_file : option str) :
  no_delivery (run_read_file' recipients xlsx_file).
Proof.
  unfold run_read_file; quiet.
  apply no_delivery_get_recipients.
Qed.

Lemma failure_reports_cons (num : str) (l : list str) :
  failure_reports' (num :: l) =
  (if number_fails' num then [failure_notice' num] else [])
    ++ failure_reports' l.
Proof.
  unfold failure_reports; cbn [filter].
  destruct (number_fails' num); reflexivity.
Qed.

(** The loop prints the notice of each failing entry, in order, and
    remembers whether there was one. *)
Lemma clean_loop_trace (l : list str) (error_found : bool)
  (cleaned : set str) :
  exists cleaned' : set str,
    clean_loop' (map strip_LRO l) error_found cleaned =
    (failure_reports' l,
     Return (error_found || existsb number_fails' l, cleaned')).
Proof.
  revert error_found cleaned.
  induction l as [|num l IH]; intros error_found cleaned.
  - exists cleaned; cbn; now rewrite orb_false_r.
  - rewrite failure_reports_cons; cbn [map clean_loop existsb].
    assert (Hnf : number_fails' num =
                  match phonenumbers_parse (strip_LRO num) with
                  | None => true
                  | Some parsed => negb (is_valid_number parsed)
                  end) by reflexivity.
    assert (Hfn : failure_notice' num =
                  match phonenumbers_parse (strip_LRO num) with
                  | None => ParseErrorNotice (strip_LRO num)
                  | Some _ => InvalidNumberNotice (strip_LRO num)
                  end) by reflexivity.
    destruct (phonenumbers_parse (strip_LRO num)) as [parsed|] eqn:Hp.
    + destruct (is_valid_number parsed); cbn [negb] in Hnf;
        rewrite Hnf, ?Hfn.
      * destruct (IH error_found
                    (set_add str_eq_dec (format_E164 parsed) cleaned))
          as [cleaned' ->].
        now exists cleaned'.
      * destruct (IH true cleaned) as [cleaned' ->].
        exists cleaned'; cbn; now rewrite orb_true_r.
    + rewrite Hnf, Hfn.
      destruct (IH true cleaned) as [cleaned' ->].
      exists cleaned'; cbn; now rewrite orb_true_r.
Qed.

(** The comprehension of line 199 succeeds on strings and on nothing
    else. *)
Lemma replace_all_LRO_text (l : list str) :
  replace_all_LRO (map VStr l) = Return (map strip_LRO l).
Proof.
  induction l as [|num l IH]; [reflexivity|].
  cbn [map replace_all_LRO value_replace_LRO]; now rewrite IH.
Qed.

Lemma replace_all_LRO_outcome (l : list value) :
  (forallb is_text l = true /\
   exists strs : list str,
     l = map VStr strs /\ replace_all_LRO l = Return (map strip_LRO strs)) \/
  (forallb is_text l = false /\ replace_all_LRO l = Raise AttributeError).
Proof.
  induction l as [|v l IH].
  - left; split; [reflexivity|now exists []].
  - cbn [forallb replace_all_LRO].
    destruct v as [s| |q]; cbn [is_text value_replace_LRO andb];
      [|right; now split|right; now split].
    destruct IH as [(Hall & strs & -> & ->)|(Hsome & ->)].
    + left; split; [exact Hall|now exists (s :: strs)].
    + right; now split.
Qed.

Lemma clean_phone_numbers_trace (l : list str) :
  exists cleaned : set str,
    clean_phone_numbers' (map VStr l) =
    (failure_reports' l,
     if existsb number_fails' l then Raise UnableToCleanException
     else Return cleaned).
Proof.
  unfold clean_phone_numbers; rewrite replace_all_LRO_text.
  destruct (clean_loop_trace l false (empty_set str)) as [cleaned ->].
  exists cleaned; cbn.
  destruct (existsb number_fails' l); cbn; now rewrite app_nil_r.
Qed.

Lemma no_delivery_failure_reports (l : list str) :
  delivery_events (failure_reports' l) = [].
Proof.
  unfold failure_reports.
  induction (filter number_fails' l) as [|num f IH]; [reflexivity|].
  cbn [map]; unfold failure_notice at 1.
  destruct (phonenumbers_parse (strip_LRO num)); exact IH.
Qed.

Lemma no_delivery_clean_phone_numbers (l : list value) :
  no_delivery (clean_phone_numbers' l).
Proof.
  destruct (replace_all_LRO_outcome l) as [(_ & strs & -> & _)|(_ & Hraise)].
  - destruct (clean_phone_numbers_trace strs) as [cleaned ->].
    apply no_delivery_failure_reports.
  - unfold clean_phone_numbers; rewrite Hraise; reflexivity.
Qed.

Lemma no_delivery_run_clean (recipients : option (list value)) :
  no_delivery (run_clean' recipients).
Proof.
  unfold run_clean.
  destruct recipients as [[|num l]|]; [quiet| |quiet].
  apply no_delivery_catch.
  - apply no_delivery_bind;
      [apply no_delivery_clean_phone_numbers|intros; quiet].
  - intros e; quiet.
Qed.

Lemma no_delivery_run_prepare (sender message : str)
  (recipients : option (list value)) (xlsx_file : option str)
  (dry_run : bool) :
  no_delivery (run_prepare' sender message recipients xlsx_file dry_run).
Proof.
  unfold run_prepare.
  apply no_delivery_bind; [quiet|intros _].
  apply no_delivery_bind; [apply no_delivery_clean_message|intros b].
  apply no_delivery_bind; [apply no_delivery_run_read_file|intros read].
  destruct read as [rs|]; [|quiet].
  apply no_delivery_bind; [apply no_delivery_run_clean|intros; quiet].
Qed.

(** *** The delivery loop *)

Lemma send_sms_dry_run (msg : str) (sender : option str)
  (recipient_list : list str) (w : World) :
  send_sms' msg recipient_list sender true w =
  (w, (map DryRunPretend recipient_list, Return tt)).
Proof.
  unfold send_sms.
  induction recipient_list as [|recipient rest IH]; [reflexivity|].
  cbn [send_loop]; now rewrite IH.
Qed.

Lemma posts_pretend (l : list str) : posts (map DryRunPretend l) = [].
Proof. induction l; auto. Qed.

(** C8. With the dry-run flag set, [send_sms] never calls the
    transport: it leaves the outside world as it was and prints one
    placeholder notice per recipient, in order, and nothing else; and a
    whole [run] with the flag set makes no POST, whatever the message,
    the recipients or the workbook. *)
Theorem dry_run_never_posts (msg : str) (recipient_list : list str)
  (sender : option str) (message : str) (recipients : option (list value))
  (xlsx_file : option str) (w : World) :
  send_sms' msg recipient_list sender true w =
    (w, (map DryRunPretend recipient_list, Return tt)) /\
  posts (map DryRunPretend recipient_list) = [] /\
  fst (run' message recipients xlsx_file sender true w) = w /\
  posts (fst (snd (run' message recipients xlsx_file sender true w))) = [].
Proof.
  split; [apply send_sms_dry_run|].
  split; [apply posts_pretend|].
  unfold run.
  set (who := match sender with Some s => s | None => default_sender end).
  pose proof (no_delivery_run_prepare who message recipients xlsx_file true)
    as Hquiet.
  destruct (run_prepare' who message recipients xlsx_file true)
    as [t [[[message_clean rs]|]|e]];
    unfold no_delivery in Hquiet; cbn [fst snd] in *;
    try (split; [reflexivity|now apply no_delivery_no_posts]).
  destruct (message_clean && truthy_opt_list rs).
  - rewrite send_sms_dry_run; cbn.
    split; [reflexivity|].
    rewrite posts_app, posts_pretend, app_nil_r.
    now apply no_delivery_no_posts.
  - cbn; split; [reflexivity|].
    rewrite posts_app; cbn; rewrite app_nil_r.
    now apply no_delivery_no_posts.
Qed.

Lemma in_reply_events_not_sent (req : request) (answer : reply)
  (r : str) (status_code : Z) (content : bytes) :
  In (MessageNotSent r status_code content) (reply_events req answer) <->
  answer = Response status_code content /\ To req = r /\ status_code <> 200.
Proof.
  destruct answer as [st c|e]; cbn.
  - destruct (Z.eqb_spec st 200) as [->|Hne]; cbn; split.
    + intros [H|[]]; discriminate H.
    + intros (H & _ & Hne); injection H as <- _; congruence.
    + intros [H|[H|[]]]; [discriminate H|].
      injection H as <- <- <-; auto.
    + intros (H & <- & _); injection H as <- <-; auto.
  - split; [intros [H|[]]; discriminate H|intros (H & _); discriminate H].
Qed.

(** C3, as the code has it. In the live loop, when the transport
    answers every POST of the list with a response, whatever its status,
    [send_sms] returns normally: it has made exactly one POST per
    recipient, in the order of the list, each followed by a notice for
    that recipient alone exactly when the status the transport answered
    to that POST is not 200. *)
Theorem status_failure_does_not_halt (msg : str) (sender : option str)
  (recipient_list : list str) (w : World) :
  let reqs := map (make_request' msg sender) recipient_list in
  let answers := snd (exchange requests_post reqs w) in
  let out := send_sms' msg recipient_list sender false w in
  forallb is_response answers = true ->
  out =
    (fst (exchange requests_post reqs w),
     (flat_map (fun ra => reply_events (fst ra) (snd ra))
               (combine reqs answers),
      Return tt)) /\
  map To (posts (fst (snd out))) = recipient_list /\
  forall (r : str) (status_code : Z) (content : bytes),
    In (MessageNotSent r status_code content) (fst (snd out)) <->
    In (make_request' msg sender r, Response status_code content)
       (combine reqs answers) /\
    status_code <> 200.
Proof.
  cbv zeta; unfold send_sms; intros Hanswers.
  assert (Hout :
    send_loop World requests_post ACCESS_TOKEN msg sender false
      recipient_list w =
    (fst (exchange requests_post
            (map (make_request' msg sender) recipient_list) w),
     (flat_map (fun ra => reply_events (fst ra) (snd ra))
        (combine (map (make_request' msg sender) recipient_list)
           (snd (exchange requests_post
                   (map (make_request' msg sender) recipient_list) w))),
      Return tt)) /\
    map To (posts (fst (snd (send_loop World requests_post ACCESS_TOKEN msg
                               sender false recipient_list w))))
    = recipient_list).
  { revert w Hanswers.
    induction recipient_list as [|recipient rest IH]; intros w Hanswers.
    - split; reflexivity.
    - cbn [map exchange send_loop] in *.
      destruct (requests_post w (make_request' msg sender recipient))
        as [w1 answer].
      specialize (IH w1).
      destruct (exchange requests_post (map (make_request' msg sender) rest)
                  w1) as [w' answers] eqn:Hexchange.
      cbn [fst snd forallb] in *.
      apply andb_prop in Hanswers as [Hanswer Hrest].
      destruct answer as [status_code content|e]; [|discriminate Hanswer].
      destruct (IH Hrest) as [Heq Hposts].
      rewrite Heq in *; cbn [fst snd] in Hposts.
      destruct (negb (status_code =? 200)) eqn:Hstatus;
        cbn; rewrite Hstatus; cbn; rewrite Hposts; split; reflexivity. }
  destruct Hout as [Heq Hposts].
  split; [exact Heq|split; [exact Hposts|]].
  intros r status_code content.
  rewrite Heq; cbn [fst snd]; rewrite in_flat_map; split.
  - intros ([req answer] & Hin & Hev); cbn [fst snd] in Hev.
    apply in_reply_events_not_sent in Hev as (-> & <- & Hne).
    split; [|exact Hne].
    pose proof (in_combine_l _ _ _ _ Hin) as Hreq.
    apply in_map_iff in Hreq as (r' & <- & _); exact Hin.
  - intros [Hin Hne].
    exists (make_request' msg sender r, Response status_code content).
    split; [exact Hin|].
    apply in_reply_events_not_sent; auto.
Qed.

(** *** All-or-nothing validation *)

Lemma run_clean_failing (l : list str) :
  existsb number_fails' l = true ->
  clean_phone_numbers' (map VStr l) =
    (failure_reports' l, Raise UnableToCleanException) /\
  run_clean' (Some (map VStr l)) =
    (failure_reports' l ++ [NotParsable], Return None).
Proof.
  intros Hfails.
  destruct (clean_phone_numbers_trace l) as [cleaned Hclean].
  rewrite Hfails in Hclean.
  split; [exact Hclean|].
  destruct l as [|num l]; [discriminate|].
  unfold run_clean; cbn [map] in *; rewrite Hclean; reflexivity.
Qed.

(** C7. When an entry of the recipient list fails to parse or is not a
    valid number, [clean_phone_numbers] prints the notice of every
    failing entry and then raises; [run] prints that the numbers were
    not parsable and that there is nothing to do, and returns: its
    trace holds no delivery event, real or pretended, and the outside
    world is untouched. This holds for a list given directly and for a
    list read from a workbook. *)
Theorem failing_entry_rejects_batch (message : str) (l : list str)
  (given : option (list value)) (path : str) (sender : option str)
  (dry_run : bool) (w : World) :
  Exists (fun num => number_fails' num = true) l ->
  let who := match sender with Some s => s | None => default_sender end in
  let analysis := fst (clean_message message dry_run) in
  clean_phone_numbers' (map VStr l) =
    (failure_reports' l, Raise UnableToCleanException) /\
  (forall num, In num l -> number_fails' num = true ->
               In (failure_notice' num) (failure_reports' l)) /\
  run' message (Some (map VStr l)) None sender dry_run w =
    (w, (UsingSender who :: analysis ++ failure_reports' l
           ++ [NotParsable; NothingToDo], Return tt)) /\
  delivery_events
    (fst (snd (run' message (Some (map VStr l)) None sender dry_run w))) = [] /\
  (forall t0,
     get_recipients' (Some path) = (t0, Return (Some (map VStr l))) ->
     run' message given (Some path) sender dry_run w =
       (w, (UsingSender who :: analysis ++ t0 ++ failure_reports' l
              ++ [NotParsable; NothingToDo], Return tt)) /\
     delivery_events
       (fst (snd (run' message given (Some path) sender dry_run w))) = []).
Proof.
  intros Hsome who analysis.
  assert (Hfails : existsb number_fails' l = true).
  { apply existsb_exists. apply Exists_exists in Hsome. exact Hsome. }
  destruct (run_clean_failing l Hfails) as [Hclean Hrun_clean].
  assert (Hnonempty : truthy_opt_list (Some (map VStr l)) = true)
    by (destruct l; [discriminate|reflexivity]).
  assert (Hquiet : delivery_events analysis = [])
    by apply no_delivery_clean_message.
  destruct (clean_message_returns message dry_run) as [b Hb].
  assert (Hdirect :
    run' message (Some (map VStr l)) None sender dry_run w =
    (w, (UsingSender who :: analysis ++ failure_reports' l
           ++ [NotParsable; NothingToDo], Return tt))).
  { unfold run, run_prepare, run_read_file; fold who; subst analysis.
    destruct (clean_message message dry_run) as [tcm rcm].
    cbn [fst snd] in *; subst rcm.
    cbn [truthy_opt_list bind print ret fst snd app].
    rewrite Hrun_clean; cbn [bind ret fst snd app].
    rewrite andb_false_r; cbn [bind print fst snd app].
    now rewrite !app_nil_r, <- !app_assoc. }
  split; [exact Hclean|].
  split.
  { intros num Hin Hnum; unfold failure_reports.
    apply in_map, filter_In; auto. }
  split; [exact Hdirect|].
  split.
  { rewrite Hdirect; cbn [fst snd delivery_events filter is_delivery].
    fold (delivery_events
            (analysis ++ failure_reports' l ++ [NotParsable; NothingToDo])).
    rewrite !delivery_events_app, Hquiet, no_delivery_failure_reports.
    reflexivity. }
  intros t0 Hread.
  assert (Ht0 : delivery_events t0 = []).
  { pose proof (no_delivery_get_recipients (Some path)) as Hq.
    unfold no_delivery in Hq; now rewrite Hread in Hq. }
  assert (Hpath : truthy_opt_list (Some path) = true).
  { destruct path; [discriminate Hread|reflexivity]. }
  assert (Hfile :
    run' message given (Some path) sender dry_run w =
    (w, (UsingSender who :: analysis ++ t0 ++ failure_reports' l
           ++ [NotParsable; NothingToDo], Return tt))).
  { unfold run, run_prepare, run_read_file; fold who; subst analysis.
    destruct (clean_message message dry_run) as [tcm rcm].
    cbn [fst snd] in *; subst rcm.
    rewrite Hpath, Hread.
    cbn [catch bind print ret fst snd app]; rewrite Hnonempty.
    cbn [negb catch bind print ret fst snd app].
    rewrite Hrun_clean; cbn [bind ret fst snd app].
    rewrite andb_false_r; cbn [bind print fst snd app].
    now rewrite !app_nil_r, <- !app_assoc. }
  split; [exact Hfile|].
  rewrite Hfile; cbn [fst snd delivery_events filter is_delivery].
  fold (delivery_events
          (analysis ++ t0 ++ failure_reports' l
             ++ [NotParsable; NothingToDo])).
  rewrite !delivery_events_app, Hquiet, Ht0, no_delivery_failure_reports.
  reflexivity.
Qed.

End OrchestratorFacts.

(** ** Closed instances *)

Lemma status_failure_does_not_halt_witness :
  Demo.send Demo.post_status Demo.hello [Demo.alice; Demo.bob; Demo.carol]
    (Some Demo.sender) false 0%nat =
    (fst (exchange Demo.post_status
            (map (Demo.request_to Demo.hello)
                 [Demo.alice; Demo.bob; Demo.carol]) 0%nat),
     (flat_map (fun ra => reply_events (fst ra) (snd ra))
        (combine
           (map (Demo.request_to Demo.hello)
                [Demo.alice; Demo.bob; Demo.carol])
           (snd (exchange Demo.post_status
                   (map (Demo.request_to Demo.hello)
                        [Demo.alice; Demo.bob; Demo.carol]) 0%nat))),
      Return tt)) /\
  map To (posts (fst (snd (Demo.send Demo.post_status Demo.hello
                             [Demo.alice; Demo.bob; Demo.carol]
                             (Some Demo.sender) false 0%nat))))
    = [Demo.alice; Demo.bob; Demo.carol] /\
  forall (r : str) (status_code : Z) (content : bytes),
    In (MessageNotSent r status_code content)
       (fst (snd (Demo.send Demo.post_status Demo.hello
                    [Demo.alice; Demo.bob; Demo.carol]
                    (Some Demo.sender) false 0%nat))) <->
    In (Demo.request_to Demo.hello r, Response status_code content)
       (combine
          (map (Demo.request_to Demo.hello)
               [Demo.alice; Demo.bob; Demo.carol])
          (snd (exchange Demo.post_status
                  (map (Demo.request_to Demo.hello)
                       [Demo.alice; Demo.bob; Demo.carol]) 0%nat))) /\
    status_code <> 200.
Proof.
  apply (status_failure_does_not_halt Demo.World Demo.post_status Demo.token
           Demo.hello (Some Demo.sender)
           [Demo.alice; Demo.bob; Demo.carol] 0%nat).
  reflexivity.
Defined.

(** The 500 answered for [bob] is reported for [bob]; [carol] is still
    served. *)
Example status_failure_trace :
  Demo.send Demo.post_status Demo.hello [Demo.alice; Demo.bob; Demo.carol]
    (Some Demo.sender) false 0%nat =
  (3%nat,
   ([HttpPost (Demo.request_to Demo.hello Demo.alice);
     HttpPost (Demo.request_to Demo.hello Demo.bob);
     MessageNotSent Demo.bob 500 (py "busy");
     HttpPost (Demo.request_to Demo.hello Demo.carol)],
    Return tt)).
Proof. reflexivity. Qed.

(** C3, as stated, fails when the failure is an exception of the
    transport: with a gateway unreachable for [alice], the exception
    leaves [send_sms] and [run], nothing is reported for [alice], and
    [carol] is never attempted. *)
Lemma unreachable_gateway_halts_loop :
  Demo.send Demo.post_unreachable Demo.hello [Demo.alice; Demo.carol]
    (Some Demo.sender) false 0%nat =
    (1%nat, ([HttpPost (Demo.request_to Demo.hello Demo.alice)],
             Raise (LibraryError "requests.ConnectionError"))) /\
  ~ In Demo.carol
      (map To (posts (fst (snd (Demo.send Demo.post_unreachable Demo.hello
                                  [Demo.alice; Demo.carol]
                                  (Some Demo.sender) false 0%nat))))) /\
  snd (snd (Demo.run_with Demo.post_unreachable Demo.book_first_column
              Demo.hello (Some [VStr Demo.alice; VStr Demo.carol]) None None
              false 0%nat)) =
    Raise (LibraryError "requests.ConnectionError").
Proof.
  split; [reflexivity|].
  split; [|reflexivity].
  vm_compute; intros [H|[]]; discriminate H.
Qed.

Lemma failing_entry_rejects_batch_witness :
  Exists (fun num => Demo.fails num = true) Demo.batch /\
  Demo.run_with Demo.post_status Demo.book_first_column Demo.hello
    (Some (map VStr Demo.batch)) None None false 0%nat =
    (0%nat,
     (UsingSender Demo.sender :: fst (clean_message Demo.hello false)
        ++ failure_reports Demo.PhoneNumber Demo.parse Demo.valid Demo.batch
        ++ [NotParsable; NothingToDo],
      Return tt)).
Proof.
  assert (Hfails : Exists (fun num => Demo.fails num = true) Demo.batch)
    by (right; left; reflexivity).
  split; [exact Hfails|].
  exact (proj1 (proj2 (proj2
           (failing_entry_rejects_batch Demo.World Demo.post_status
              Demo.PhoneNumber Demo.parse Demo.valid Demo.format
              (Demo.load Demo.book_first_column) Demo.sender Demo.token
              Demo.hello Demo.batch None Demo.path None false 0%nat
              Hfails)))).
Defined.

(** One malformed number among three valid ones: one notice, no
    delivery, in a live run. *)
Example malformed_number_trace :
  Demo.run_with Demo.post_status Demo.book_first_column Demo.hello
    (Some (map VStr Demo.batch)) None None false 0%nat =
  (0%nat,
   ([UsingSender Demo.sender; SingleMessage "gsm7";
     ParseErrorNotice Demo.malformed; NotParsable; NothingToDo],
    Return tt)).
Proof. reflexivity. Qed.

(** C2, on the code. A message of 766 letters "a" has an empty omitted
    list and fits no GSM-7 segment count, yet [clean_message] reports a
    single GSM-7 message and returns [True], and a live [run] posts it. *)
Theorem overlong_gsm7_message_accepted :
  fst (gsm_encode Demo.long_ascii) = [] /\
  len Demo.long_ascii = 766 /\
  count_messages (len Demo.long_ascii) "gsm7" = None /\
  (forall dry_run : bool,
     clean_message Demo.long_ascii dry_run =
       ([SingleMessage "gsm7"], Return true)) /\
  posts (fst (snd (Demo.run_with Demo.post_status Demo.book_first_column
                     Demo.long_ascii (Some [VStr Demo.alice]) None None
                     false 0%nat))) =
    [Demo.request_to Demo.long_ascii Demo.alice].
Proof.
  repeat split; try intros [|]; vm_compute; reflexivity.
Qed.

(** C4, on the code. In a worksheet of two columns whose header "SMS" is
    in the second, and last, column, the search stops before that column:
    [find_recipient_data] raises and [get_recipients] prints that a
    workbook with such a header is required. With the header in the
    first column the numbers are returned. *)
Theorem header_in_last_column_not_found :
  map max_column (worksheets Demo.book_last_column) = [2] /\
  map (fun sheet => value_lower (cell_value sheet 1 2))
      (worksheets Demo.book_last_column) = [Return (py "sms")] /\
  map (fun sheet => range 1 (max_column sheet))
      (worksheets Demo.book_last_column) = [[1]] /\
  find_recipient_data Demo.book_last_column =
    ([], Raise RecipientsNotFoundException) /\
  Demo.read Demo.book_last_column (Some Demo.path) =
    ([WorkbookRequired], Return None) /\
  Demo.read Demo.book_first_column (Some Demo.path) =
    ([], Return (Some [VStr Demo.alice; VStr Demo.bob])).
Proof. repeat split; vm_compute; reflexivity. Qed.

(** ** The scenarios of the specification *)

Example scenario_hello :
  gsm_encode Demo.hello = ([], py "48656c6c6f") /\
  clean_message Demo.hello true = ([SingleMessage "gsm7"], Return true).
Proof. split; reflexivity. Qed.

Example scenario_170_ascii :
  clean_message (repeat 97%N 170) true =
    ([Concatenated "gsm7" 2], Return true).
Proof. reflexivity. Qed.

(** * Further properties of the code *)

(** ** The classifier *)

Lemma in_primary_spec (c : char) :
  in_primary c = true <-> In c GSM7_CHARSET.
Proof.
  unfold in_primary; rewrite existsb_exists; split.
  - intros (x & Hin & Heq); apply N.eqb_eq in Heq; now subst.
  - intros Hin; exists c; split; [exact Hin|apply N.eqb_refl].
Qed.

Lemma in_extension_spec (c : char) :
  existsb (N.eqb c) EXT_CHARSET = true <-> In c EXT_CHARSET.
Proof.
  rewrite existsb_exists; split.
  - intros (x & Hin & Heq); apply N.eqb_eq in Heq; now subst.
  - intros Hin; exists c; split; [exact Hin|apply N.eqb_refl].
Qed.

(** The three cases of one iteration, by the class of the character. *)
Lemma gsm_encode_step_cases (c : char) :
  (in_primary c = true /\ in_extension_only c = false /\
   exists idx : Z,
     0 <= idx < 128 /\
     nth_error GSM7_CHARSET (Z.to_nat idx) = Some c /\
     gsm_encode_step ([], []) c = ([], [chr idx])) \/
  (in_primary c = false /\ in_extension_only c = true /\
   exists idx : Z,
     0 <= idx < 128 /\
     nth_error EXT_CHARSET (Z.to_nat idx) = Some c /\
     gsm_encode_step ([], []) c = ([c], [chr 27; chr idx])) \/
  (in_primary c = false /\ in_extension_only c = false /\
   gsm_encode_step ([], []) c = ([c], [])).
Proof.
  unfold in_extension_only.
  destruct (in_primary c) eqn:Hp.
  - left; split; [reflexivity|split; [reflexivity|]].
    apply step_primary, in_primary_spec, Hp.
  - assert (Hnot : ~ In c GSM7_CHARSET)
      by (rewrite <- in_primary_spec, Hp; discriminate).
    right; destruct (existsb (N.eqb c) EXT_CHARSET) eqn:He.
    + left; split; [reflexivity|split; [reflexivity|]].
      apply in_extension_spec in He.
      destruct (step_extension c Hnot He) as (idx & Hidx & Hnth & _ & Hstep).
      exists idx; auto.
    + right; split; [reflexivity|split; [reflexivity|]].
      apply step_neither; [exact Hnot|].
      rewrite <- in_extension_spec, He; discriminate.
Qed.

Lemma gsm_encode_loop_cons (c : char) (m : str) :
  gsm_encode_loop (c :: m) =
  (fst (gsm_encode_step ([], []) c) ++ fst (gsm_encode_loop m),
   snd (gsm_encode_step ([], []) c) ++ snd (gsm_encode_loop m)).
Proof.
  change (c :: m) with ([] ++ c :: m).
  now rewrite gsm_encode_loop_char.
Qed.

(** X1. The omitted list is the message with the characters of the
    primary alphabet removed: every other character, in message order,
    once per occurrence. *)
Theorem omitted_keeps_order_and_repeats (m : str) :
  fst (gsm_encode m) = filter (fun c => negb (in_primary c)) m.
Proof.
  rewrite (proj1 (gsm_encode_output m)); cbn [fst].
  induction m as [|c m IH]; [reflexivity|].
  rewrite gsm_encode_loop_cons; cbn [fst filter]; rewrite IH.
  destruct (gsm_encode_step_cases c)
    as [(Hp & _ & idx & _ & _ & ->)|[(Hp & _ & idx & _ & _ & ->)|(Hp & _ & ->)]];
    rewrite Hp; reflexivity.
Qed.

(** X2. The number of codes is one per character of the primary
    alphabet plus two per character found only in the extension
    alphabet; the returned bytes are twice as many. It never exceeds
    twice the length of the message. *)
Theorem encoded_length (m : str) :
  len (snd (gsm_encode_loop m)) =
    len (filter in_primary m) + 2 * len (filter in_extension_only m) /\
  len (snd (gsm_encode m)) = 2 * len (snd (gsm_encode_loop m)) /\
  len (snd (gsm_encode_loop m)) <= 2 * len m.
Proof.
  split; [|split; [apply gsm_encode_output|]].
  - unfold len; induction m as [|c m IH]; [reflexivity|].
    rewrite gsm_encode_loop_cons; cbn [snd filter].
    rewrite length_app, Nat2Z.inj_add, IH.
    destruct (gsm_encode_step_cases c)
      as [(Hp & He & idx & _ & _ & ->)|[(Hp & He & idx & _ & _ & ->)
                                       |(Hp & He & ->)]];
      rewrite Hp, He; cbn [snd List.length];
      rewrite ?Nat2Z.inj_succ; lia.
  - unfold len; induction m as [|c m IH]; [cbn; lia|].
    rewrite gsm_encode_loop_cons; cbn [snd List.length].
    rewrite length_app, Nat2Z.inj_add, Nat2Z.inj_succ.
    destruct (gsm_encode_step_cases c)
      as [(_ & _ & idx & _ & _ & ->)|[(_ & _ & idx & _ & _ & ->)|(_ & _ & ->)]];
      cbn [snd List.length]; lia.
Qed.

(** X3. When nothing is omitted, the codes read back as the message:
    there is one code per character, and each code is a position of the
    primary table that holds that character. *)
Theorem primary_codes_read_back (m : str) :
  fst (gsm_encode m) = [] ->
  Forall2 (fun c u => nth_error GSM7_CHARSET (N.to_nat u) = Some c)
          m (snd (gsm_encode_loop m)).
Proof.
  rewrite (proj1 (gsm_encode_output m)); cbn [fst].
  induction m as [|c m IH]; [constructor|].
  rewrite gsm_encode_loop_cons; cbn [fst snd].
  destruct (gsm_encode_step_cases c)
    as [(_ & _ & idx & Hidx & Hnth & ->)|[(_ & _ & idx & _ & _ & ->)
                                         |(_ & _ & ->)]];
    cbn [fst snd app]; intros Hom; try discriminate Hom.
  constructor; [|exact (IH Hom)].
  unfold chr; now rewrite Z_N_nat.
Qed.

Lemma primary_codes_read_back_witness :
  Forall2 (fun c u => nth_error GSM7_CHARSET (N.to_nat u) = Some c)
          Demo.hello (snd (gsm_encode_loop Demo.hello)).
Proof. apply (primary_codes_read_back Demo.hello); reflexivity. Defined.

(** X17. The codes do not determine the message. The escape character
    (U+001B) is itself at position 27 of the primary table, so the
    escape character followed by the primary character at position
    [idx] gives the same codes, in any context, as the extension
    character at position [idx]. *)
Theorem escape_pair_collides (a b : str) (c p : char) (idx : Z) :
  ~ In c GSM7_CHARSET ->
  idx <> -1 ->
  str_find EXT_CHARSET c = idx ->
  str_find GSM7_CHARSET p = idx ->
  snd (gsm_encode_loop (a ++ 27%N :: p :: b)) =
    snd (gsm_encode_loop (a ++ c :: b)) /\
  snd (gsm_encode (a ++ 27%N :: p :: b)) = snd (gsm_encode (a ++ c :: b)).
Proof.
  intros Hnot Hidx Hext Hprim.
  assert (Hcodes : snd (gsm_encode_loop (a ++ 27%N :: p :: b)) =
                   snd (gsm_encode_loop (a ++ c :: b))).
  { rewrite !gsm_encode_loop_char; cbn [snd].
    rewrite gsm_encode_loop_cons; cbn [snd].
    assert (Hesc : gsm_encode_step ([], []) 27%N = ([], [chr 27]))
      by reflexivity.
    assert (Hp : gsm_encode_step ([], []) p = ([], [chr idx])).
    { unfold gsm_encode_step; rewrite Hprim.
      destruct (Z.eqb_spec idx (-1)); [contradiction|reflexivity]. }
    assert (Hc : gsm_encode_step ([], []) c = ([c], [chr 27; chr idx])).
    { unfold gsm_encode_step.
      rewrite (str_find_absent _ _ Hnot), Hext; cbn [Z.eqb negb].
      destruct (Z.eqb_spec idx (-1)); [contradiction|reflexivity]. }
    rewrite Hesc, Hp, Hc; reflexivity. }
  split; [exact Hcodes|].
  rewrite (proj1 (gsm_encode_output (a ++ 27%N :: p :: b))).
  rewrite (proj1 (gsm_encode_output (a ++ c :: b))).
  cbn [snd]; now rewrite Hcodes.
Qed.

Lemma escape_pair_collides_witness :
  snd (gsm_encode_loop (py "a" ++ 27%N :: 101%N :: py "b")) =
    snd (gsm_encode_loop (py "a" ++ euro :: py "b")) /\
  snd (gsm_encode (py "a" ++ 27%N :: 101%N :: py "b")) =
    snd (gsm_encode (py "a" ++ euro :: py "b")).
Proof.
  apply (escape_pair_collides (py "a") (py "b") euro 101%N 101).
  - apply str_find_not_in; reflexivity.
  - discriminate.
  - reflexivity.
  - reflexivity.
Defined.

(** ** Segment counts and the verdict *)

Lemma count_messages_utf16_none (c : Z) :
  count_messages c "utf16" = None <-> 335 < c.
Proof.
  rewrite count_messages_unrolled; cbv zeta.
  destruct (threshold_values "utf16") as (T0 & T1 & T2 & T3 & T4).
  change (String.eqb "utf16" "gsm7") with false in *; cbv iota in *.
  split_thresholds c; cbv iota; split; intros Hside;
    solve [discriminate | lia | reflexivity | exfalso; lia].
Qed.

Lemma count_messages_gsm7_none (c : Z) :
  count_messages c "gsm7" = None <-> 765 < c.
Proof.
  rewrite count_messages_unrolled; cbv zeta.
  destruct (threshold_values "gsm7") as (T0 & T1 & T2 & T3 & T4).
  change (String.eqb "gsm7" "gsm7") with true in *; cbv iota in *.
  split_thresholds c; cbv iota; split; intros Hside;
    solve [discriminate | lia | reflexivity | exfalso; lia].
Qed.

(** X4. For one character count, GSM-7 never needs more segments than
    any other mode, and a count that fits no GSM-7 segment count fits
    none of the other mode either. *)
Theorem gsm7_never_needs_more (c : Z) (mode : string) :
  segments_le (count_messages c "gsm7") (count_messages c mode).
Proof.
  destruct (count_messages c mode) as [u|] eqn:Hu;
    [|destruct (count_messages c "gsm7"); exact I].
  destruct (String.eqb mode "gsm7") eqn:Hmode.
  - apply String.eqb_eq in Hmode; subst mode; rewrite Hu; simpl; lia.
  - assert (Hutf : count_messages c "utf16" = Some u).
    { rewrite <- Hu; unfold count_messages; cbn.
      rewrite Hmode; reflexivity. }
    destruct (gsm7_fits_when_utf16_fits c u Hutf) as (g & -> & Hrange).
    simpl; lia.
Qed.

Lemma report_message_verdict (mode : string) (g u : option Z) :
  snd (report_message mode g u) = Return true.
Proof.
  unfold report_message.
  destruct (String.eqb mode "gsm7"), g as [g|], u as [u|]; cbn;
    repeat match goal with
           | |- context [if ?b then _ else _] => destruct b
           end; reflexivity.
Qed.

Local Opaque count_messages len Z.gtb Z.sub Z.to_pos Z.leb.

Lemma clean_message_decides (message : str) (dry_run : bool) :
  snd (clean_message message dry_run) =
  Return (match fst (gsm_encode message) with
          | [] => true
          | _ :: _ => len message <=? 335
          end).
Proof.
  unfold clean_message.
  destruct (gsm_encode message) as [[|c om] hex]; cbn [fst].
  - apply report_message_verdict.
  - destruct (count_messages (len message) "utf16") as [u|] eqn:Hu.
    + assert (Hfit : (len message <=? 335) = true).
      { apply Z.leb_le.
        destruct (Z.le_gt_cases (len message) 335) as [Hle|Hgt]; [exact Hle|].
        apply count_messages_utf16_none in Hgt; congruence. }
      destruct (gsm7_fits_when_utf16_fits _ _ Hu) as (g & Hg & Hrange).
      rewrite Hfit, Hg, report_message_utf16 by lia.
      destruct dry_run; reflexivity.
    + assert (Hfit : (len message <=? 335) = false)
        by (apply Z.leb_gt, count_messages_utf16_none, Hu).
      rewrite Hfit.
      destruct dry_run, (count_messages (len message) "gsm7"); reflexivity.
Qed.

(** X5. [clean_message] never raises, and its verdict does not depend
    on the dry-run flag: it is [False] exactly when the omitted list is
    not empty and the message has more than 335 characters. A message
    with an empty omitted list is accepted at any length. *)
Theorem clean_message_verdict (message : str) (dry_run : bool) :
  snd (clean_message message dry_run) =
  Return (match fst (gsm_encode message) with
          | [] => true
          | _ :: _ => len message <=? 335
          end).
Proof. apply clean_message_decides. Qed.

(** X6. The dry-run flag only adds advice: what [clean_message] prints
    outside a dry run is what it prints in a dry run without the
    suggestion and the hint. *)
Theorem advice_only_in_dry_run (message : str) :
  fst (clean_message message false) =
  filter (fun e => negb (is_advice e)) (fst (clean_message message true)).
Proof.
  unfold clean_message.
  destruct (gsm_encode message) as [[|c om] hex].
  - destruct (count_messages (len message) "gsm7") as [g|] eqn:Hg.
    + rewrite report_message_gsm7
        by (eapply count_messages_positive; exact Hg).
      unfold report_event; destruct (g >? 1); reflexivity.
    + reflexivity.
  - destruct (count_messages (len message) "utf16") as [u|] eqn:Hu.
    + destruct (gsm7_fits_when_utf16_fits _ _ Hu) as (g & Hg & Hrange).
      rewrite Hg, report_message_utf16 by lia.
      unfold report_event; destruct (u >? 1); reflexivity.
    + destruct (count_messages (len message) "gsm7"); reflexivity.
Qed.

(** X7. A message with omitted characters and more than 335 characters
    is refused: the length error is printed and, in a dry run, the hint
    that replacing the omitted characters would help, exactly when the
    message has at most 765 characters. *)
Theorem overlong_unicode_refused (message : str) :
  fst (gsm_encode message) <> [] ->
  335 < len message ->
  clean_message message false = ([ErrorTooLong], Return false) /\
  clean_message message true =
    (ErrorTooLong ::
     (if len message <=? 765
      then [HoweverGsm7 (fst (gsm_encode message))] else []),
     Return false).
Proof.
  intros Hom Hlong.
  apply count_messages_utf16_none in Hlong.
  unfold clean_message.
  destruct (gsm_encode message) as [[|c om] hex]; cbn [fst] in *;
    [congruence|].
  rewrite Hlong.
  destruct (count_messages (len message) "gsm7") as [g|] eqn:Hg.
  - assert (Hfit : (len message <=? 765) = true).
    { apply Z.leb_le.
      destruct (Z.le_gt_cases (len message) 765) as [Hle|Hgt]; [exact Hle|].
      apply count_messages_gsm7_none in Hgt; congruence. }
    rewrite Hfit; split; reflexivity.
  - assert (Hfit : (len message <=? 765) = false)
      by (apply Z.leb_gt, count_messages_gsm7_none, Hg).
    rewrite Hfit; split; reflexivity.
Qed.

Local Transparent count_messages len Z.gtb Z.sub Z.to_pos Z.leb.

Lemma overlong_unicode_refused_witness :
  clean_message (repeat euro 400) false = ([ErrorTooLong], Return false) /\
  clean_message (repeat euro 400) true =
    (ErrorTooLong ::
     (if len (repeat euro 400) <=? 765
      then [HoweverGsm7 (fst (gsm_encode (repeat euro 400)))] else []),
     Return false).
Proof.
  apply (overlong_unicode_refused (repeat euro 400)).
  - vm_compute; discriminate.
  - vm_compute; reflexivity.
Defined.

(** ** The search for the recipients column *)









(** ** More on the orchestrator *)

Lemma bind_returns {A B : Type} (m : Out A) (k : A -> Out B)
  (t : trace) (b : B) :
  bind m k = (t, Return b) ->
  exists (t1 : trace) (a : A) (t2 : trace),
    m = (t1, Return a) /\ k a = (t2, Return b) /\ t = t1 ++ t2.
Proof.
  unfold bind; destruct m as [t1 [a|e]]; [|discriminate].
  destruct (k a) as [t2 r] eqn:Hk; intros Heq.
  injection Heq as <- ->.
  now exists t1, a, t2.
Qed.

Lemma strip_LRO_idempotent (p : str) : strip_LRO (strip_LRO p) = strip_LRO p.
Proof.
  unfold strip_LRO; induction p as [|c p IH]; [reflexivity|].
  cbn [filter]; destruct (negb (N.eqb c LRO)) eqn:Hc; [|exact IH].
  cbn [filter]; rewrite Hc; now f_equal.
Qed.

Section OrchestratorMore.

Variable World : Type.
Variable requests_post : World -> request -> World * reply.
Variable PhoneNumber : Type.
Variable phonenumbers_parse : str -> option PhoneNumber.
Variable is_valid_number : PhoneNumber -> bool.
Variable format_E164 : PhoneNumber -> str.
Variable load_workbook : str -> result Workbook.
Variable default_sender : str.
Variable ACCESS_TOKEN : str.

Local Abbreviation send_sms' :=
  (send_sms World requests_post ACCESS_TOKEN).
Local Abbreviation make_request' :=
  (make_request ACCESS_TOKEN).
Local Abbreviation get_recipients' :=
  (get_recipients load_workbook).
Local Abbreviation clean_loop' :=
  (clean_loop PhoneNumber phonenumbers_parse is_valid_number format_E164).
Local Abbreviation clean_phone_numbers' :=
  (clean_phone_numbers PhoneNumber phonenumbers_parse is_valid_number
     format_E164).
Local Abbreviation run_read_file' :=
  (run_read_file load_workbook).
Local Abbreviation run_clean' :=
  (run_clean PhoneNumber phonenumbers_parse is_valid_number format_E164).
Local Abbreviation run_prepare' :=
  (run_prepare PhoneNumber phonenumbers_parse is_valid_number format_E164
     load_workbook).
Local Abbreviation run' :=
  (run World requests_post PhoneNumber phonenumbers_parse is_valid_number
     format_E164 load_workbook default_sender ACCESS_TOKEN).
Local Abbreviation number_fails' :=
  (number_fails PhoneNumber phonenumbers_parse is_valid_number).
Local Abbreviation failure_reports' :=
  (failure_reports PhoneNumber phonenumbers_parse is_valid_number).

(** *** Reading the workbook *)


(** X10. A missing or empty path makes [get_recipients] raise
    [ValueError], and an exception of [load_workbook] leaves it as it
    is, both without output. Inside [run] the latter is reported as an
    unexpected error and [run] returns at once: the recipients given
    directly are ignored, nothing is delivered and "nothing to do" is
    not printed. *)
Theorem run_unloadable_file (message : str) (given : option (list value))
  (path : str) (e : exn) (sender : option str) (dry_run : bool) (w : World) :
  path <> [] ->
  load_workbook path = Raise e ->
  get_recipients' None = ([], Raise ValueError) /\
  get_recipients' (Some []) = ([], Raise ValueError) /\
  get_recipients' (Some path) = ([], Raise e) /\
  run' message given (Some path) sender dry_run w =
    (w,
     (UsingSender (match sender with Some s => s | None => default_sender end)
        :: fst (clean_message message dry_run) ++ [UnexpectedFileErrors],
      Return tt)).
Proof.
  intros Hpath Hload.
  assert (Hget : get_recipients' (Some path) = ([], Raise e)).
  { unfold get_recipients; destruct path; [congruence|now rewrite Hload]. }
  split; [reflexivity|split; [reflexivity|split; [exact Hget|]]].
  assert (Htruthy : truthy_opt_list (Some path) = true)
    by (destruct path; [congruence|reflexivity]).
  destruct (clean_message_returns message dry_run) as [b Hb].
  unfold run, run_prepare, run_read_file.
  destruct (clean_message message dry_run) as [tcm rcm].
  cbn [fst snd] in *; subst rcm.
  rewrite Htruthy, Hget.
  cbn [catch bind print ret fst snd app].
  rewrite ?app_nil_r, <- ?app_assoc; reflexivity.
Qed.

(** X11. With no recipients, none given or an empty list, and no
    workbook, [run] analyses the message, prints that there is nothing
    to do and returns; no number is cleaned and nothing is delivered. *)
Theorem run_without_recipients (message : str) (given : option (list value))
  (xlsx_file sender : option str) (dry_run : bool) (w : World) :
  truthy_opt_list given = false ->
  truthy_opt_list xlsx_file = false ->
  run' message given xlsx_file sender dry_run w =
    (w,
     (UsingSender (match sender with Some s => s | None => default_sender end)
        :: fst (clean_message message dry_run) ++ [NothingToDo],
      Return tt)).
Proof.
  intros Hgiven Hfile.
  destruct (clean_message_returns message dry_run) as [b Hb].
  unfold run, run_prepare, run_read_file, run_clean.
  destruct (clean_message message dry_run) as [tcm rcm].
  cbn [fst snd] in *; subst rcm.
  rewrite Hfile.
  destruct given as [[|num l]|]; try discriminate Hgiven;
    cbn [bind print ret fst snd app truthy_opt_list truthy_list];
    rewrite andb_false_r; cbn [bind print fst snd app];
    rewrite ?app_nil_r, <- ?app_assoc; reflexivity.
Qed.

(** *** The cleaned set *)

(** The loop keeps the set free of repetitions and adds to it exactly
    the formatted valid numbers. *)
Lemma clean_loop_set (l : list str) :
  forall (ef : bool) (cn : set str) (t : trace) (ef' : bool) (cn' : set str),
    NoDup cn ->
    clean_loop' l ef cn = (t, Return (ef', cn')) ->
    NoDup cn' /\
    forall x : str,
      In x cn' <->
      In x cn \/
      exists num p,
        In num l /\ phonenumbers_parse num = Some p /\
        is_valid_number p = true /\ format_E164 p = x.
Proof.
  induction l as [|num l IH]; intros ef cn t ef' cn' Hnodup Hloop.
  - cbn in Hloop; injection Hloop as _ _ <-.
    split; [exact Hnodup|].
    intros x; split; [now left|].
    intros [Hin|(n & p & [] & _)]; exact Hin.
  - cbn [clean_loop] in Hloop.
    destruct (phonenumbers_parse num) as [parsed|] eqn:Hparse.
    + destruct (is_valid_number parsed) eqn:Hvalid.
      * apply IH in Hloop; [|now apply set_add_nodup].
        destruct Hloop as [Hnd Hmem]; split; [exact Hnd|].
        intros x; rewrite Hmem, set_add_iff; split.
        -- intros [[->|Hin]|(n & p & Hn & Hp & Hv & Hf)].
           ++ right; exists num, parsed; repeat split; auto; now left.
           ++ now left.
           ++ right; exists n, p; repeat split; auto; now right.
        -- intros [Hin|(n & p & [->|Hn] & Hp & Hv & Hf)].
           ++ left; now right.
           ++ left; left; congruence.
           ++ right; exists n, p; auto.
      * apply bind_returns in Hloop as (t1 & a & t2 & _ & Hrest & _).
        apply IH in Hrest; [|exact Hnodup].
        destruct Hrest as [Hnd Hmem]; split; [exact Hnd|].
        intros x; rewrite Hmem; split.
        -- intros [Hin|(n & p & Hn & Hp & Hv & Hf)]; [now left|].
           right; exists n, p; repeat split; auto; now right.
        -- intros [Hin|(n & p & [->|Hn] & Hp & Hv & Hf)]; [now left| |].
           ++ congruence.
           ++ right; exists n, p; auto.
    + apply bind_returns in Hloop as (t1 & a & t2 & _ & Hrest & _).
      apply IH in Hrest; [|exact Hnodup].
      destruct Hrest as [Hnd Hmem]; split; [exact Hnd|].
      intros x; rewrite Hmem; split.
      * intros [Hin|(n & p & Hn & Hp & Hv & Hf)]; [now left|].
        right; exists n, p; repeat split; auto; now right.
      * intros [Hin|(n & p & [->|Hn] & Hp & Hv & Hf)]; [now left| |].
        -- congruence.
        -- right; exists n, p; auto.
Qed.

Lemma clean_phone_numbers_set (l : list value) (t : trace)
  (cleaned : set str) :
  clean_phone_numbers' l = (t, Return cleaned) ->
  NoDup cleaned /\
  forall x : str,
    In x cleaned <->
    exists num p,
      In (VStr num) l /\ phonenumbers_parse (strip_LRO num) = Some p /\
      is_valid_number p = true /\ format_E164 p = x.
Proof.
  unfold clean_phone_numbers; intros Hclean.
  destruct (replace_all_LRO_outcome l) as [(_ & strs & -> & Hstrip)|(_ & Hraise)];
    [|rewrite Hraise in Hclean; discriminate Hclean].
  rewrite Hstrip in Hclean.
  apply bind_returns in Hclean as (t1 & [ef cn] & t2 & Hloop & Hret & _).
  destruct ef; [discriminate Hret|].
  injection Hret as _ <-.
  apply clean_loop_set in Hloop; [|constructor].
  destruct Hloop as [Hnd Hmem]; split; [exact Hnd|].
  intros x; rewrite Hmem; split.
  - intros [[]|(n & p & Hn & Hp & Hv & Hf)].
    apply in_map_iff in Hn as (num & <- & Hnum).
    exists num, p; repeat split; auto; now apply in_map.
  - intros (num & p & Hnum & Hp & Hv & Hf).
    apply in_map_iff in Hnum as (num' & Heq & Hnum); injection Heq as ->.
    right; exists (strip_LRO num), p; repeat split; auto.
    now apply in_map.
Qed.

(** X12. When every entry parses and is valid, [clean_phone_numbers]
    prints nothing and returns a set without repetitions that holds
    exactly the E.164 forms of the entries: listing a number twice, or
    in two spellings of the same number, yields it once. *)
Theorem clean_phone_numbers_success (l : list str) :
  Forall (fun num => number_fails' num = false) l ->
  exists cleaned : set str,
    clean_phone_numbers' (map VStr l) = ([], Return cleaned) /\
    NoDup cleaned /\
    forall x : str,
      In x cleaned <->
      exists num p,
        In num l /\ phonenumbers_parse (strip_LRO num) = Some p /\
        format_E164 p = x.
Proof.
  intros Hall.
  assert (Hnone : existsb number_fails' l = false).
  { apply not_true_is_false; intros Hsome.
    apply existsb_exists in Hsome as (num & Hin & Hfail).
    rewrite Forall_forall in Hall; rewrite (Hall num Hin) in Hfail.
    discriminate. }
  assert (Hquiet : failure_reports' l = []).
  { unfold failure_reports.
    replace (filter number_fails' l) with (@nil str); [reflexivity|].
    symmetry; clear Hnone; induction Hall as [|num l Hnum _ IH];
      [reflexivity|].
    cbn [filter]; now rewrite Hnum. }
  destruct (clean_phone_numbers_trace PhoneNumber phonenumbers_parse
              is_valid_number format_E164 l) as [cleaned Hclean].
  rewrite Hnone, Hquiet in Hclean.
  exists cleaned; split; [exact Hclean|].
  destruct (clean_phone_numbers_set _ _ _ Hclean) as [Hnd Hmem].
  split; [exact Hnd|].
  intros x; rewrite Hmem; split.
  - intros (num & p & Hin & Hp & _ & Hf); exists num, p; repeat split; auto.
    apply in_map_iff in Hin as (num' & Heq & Hin); now injection Heq as <-.
  - intros (num & p & Hin & Hp & Hf); exists num, p; repeat split; auto.
    + now apply in_map.
    + rewrite Forall_forall in Hall; specialize (Hall num Hin).
      unfold number_fails in Hall; rewrite Hp in Hall.
      now destruct (is_valid_number p).
Qed.

(** *** What is posted *)

Lemma send_sms_posts_prefix (msg : str) (sender : option str)
  (recipient_list : list str) (dry_run : bool) (w : World) :
  exists n : nat,
    posts (fst (snd (send_sms' msg recipient_list sender dry_run w))) =
      firstn n (map (make_request' msg sender) recipient_list) /\
    (dry_run = true -> n = 0%nat) /\
    (dry_run = false ->
     snd (snd (send_sms' msg recipient_list sender dry_run w)) = Return tt ->
     n = List.length recipient_list).
Proof.
  destruct dry_run.
  - exists 0%nat.
    rewrite (send_sms_dry_run World requests_post ACCESS_TOKEN); cbn [fst snd].
    split; [apply posts_pretend|split; [reflexivity|discriminate]].
  - unfold send_sms.
    revert w; induction recipient_list as [|recipient rest IH]; intros w.
    + exists 0%nat; repeat split; discriminate.
    + cbn [send_loop map].
      destruct (requests_post w (make_request' msg sender recipient))
        as [w1 [status_code content|e]].
      * destruct (IH w1) as (n & Hposts & _ & Hall).
        destruct (send_loop World requests_post ACCESS_TOKEN msg sender false
                    rest w1) as [w' [t r]]; cbn [fst snd] in *.
        exists (S n); split; [|split; [discriminate|]].
        -- destruct (negb (status_code =? 200));
             cbn [bind print ret fst snd app posts firstn];
             now rewrite Hposts.
        -- intros _ Hret; cbn [List.length]; f_equal; apply Hall; auto.
           destruct (negb (status_code =? 200)), r;
             cbn [bind print ret fst snd app] in Hret;
             first [exact Hret | discriminate Hret].
      * exists 1%nat; split; [reflexivity|split; discriminate].
Qed.

(** X13. Whatever the transport does, the POSTs of [send_sms] are the
    requests for an initial part of the recipient list, in the order of
    the list and one per entry, each carrying the message, the sender,
    the URL and the token unchanged. In a dry run there is none; when a
    live call returns normally there is one for every entry. *)
Theorem send_sms_posts_in_order (msg : str) (sender : option str)
  (recipient_list : list str) (dry_run : bool) (w : World) :
  exists n : nat,
    posts (fst (snd (send_sms' msg recipient_list sender dry_run w))) =
      firstn n (map (make_request' msg sender) recipient_list) /\
    (dry_run = true -> n = 0%nat) /\
    (dry_run = false ->
     snd (snd (send_sms' msg recipient_list sender dry_run w)) = Return tt ->
     n = List.length recipient_list).
Proof. apply send_sms_posts_prefix. Qed.

Lemma run_clean_distinct (given : option (list value)) (t : trace)
  (rs : option (list str)) :
  run_clean' given = (t, Return rs) ->
  truthy_opt_list rs = true ->
  exists l : list str, rs = Some l /\ NoDup l.
Proof.
  unfold run_clean; intros Hrun Htruthy.
  destruct given as [[|v l]|].
  - injection Hrun as _ <-; discriminate Htruthy.
  - destruct (clean_phone_numbers' (v :: l)) as [tc [cleaned|e]] eqn:Hclean.
    + pose proof (clean_phone_numbers_set _ _ _ Hclean) as [Hnd _].
      cbn in Hrun; injection Hrun as _ <-.
      now exists cleaned.
    + destruct e; cbn in Hrun; try discriminate Hrun.
      injection Hrun as _ <-; discriminate Htruthy.
  - injection Hrun as _ <-; discriminate Htruthy.
Qed.

(** What [run] knows when it decides to send. *)
Lemma run_prepare_result (who message : str) (given : option (list value))
  (xlsx_file : option str) (dry_run : bool) (t : trace)
  (message_clean : bool) (rs : option (list str)) :
  run_prepare' who message given xlsx_file dry_run =
    (t, Return (Some (message_clean, rs))) ->
  snd (clean_message message dry_run) = Return message_clean /\
  exists (read : option (list value)) (t' : trace),
    run_clean' read = (t', Return rs).
Proof.
  unfold run_prepare; intros Hprep.
  apply bind_returns in Hprep as (t1 & [] & t2 & _ & Hprep & _).
  apply bind_returns in Hprep as (t3 & b & t4 & Hclean & Hprep & _).
  apply bind_returns in Hprep as (t5 & read & t6 & _ & Hprep & _).
  destruct read as [read|]; [|discriminate Hprep].
  apply bind_returns in Hprep as (t7 & rs' & t8 & Hrun & Hret & _).
  injection Hret as _ <- <-.
  split; [now rewrite Hclean|now exists read, t7].
Qed.

(** X14. In any [run], no number is posted to twice, and every POST
    carries the message as given, the resolved sender, the URL and the
    token. *)
Theorem run_posts_distinct_numbers (message : str)
  (given : option (list value)) (xlsx_file sender : option str)
  (dry_run : bool) (w : World) :
  let who := match sender with Some s => s | None => default_sender end in
  let t := fst (snd (run' message given xlsx_file sender dry_run w)) in
  NoDup (posted_to t) /\
  Forall (fun req => req = make_request' message (Some who) (To req))
         (posts t).
Proof.
  intros who t; subst t; unfold run; fold who.
  pose proof (no_delivery_run_prepare PhoneNumber phonenumbers_parse
                is_valid_number format_E164 load_workbook
                who message given xlsx_file dry_run) as Hquiet.
  unfold no_delivery in Hquiet; apply no_delivery_no_posts in Hquiet.
  destruct (run_prepare' who message given xlsx_file dry_run)
    as [t0 [[[message_clean rs]|]|e]] eqn:Hprep;
    cbn [fst snd] in *; unfold posted_to;
    try (rewrite Hquiet; split; constructor).
  destruct (message_clean && truthy_opt_list rs) eqn:Hgo.
  - apply andb_prop in Hgo as [_ Htruthy].
    destruct (run_prepare_result _ _ _ _ _ _ _ _ Hprep)
      as (_ & read & t' & Hclean).
    destruct (run_clean_distinct _ _ _ Hclean Htruthy) as (l & -> & Hnd).
    destruct (send_sms_posts_prefix message (Some who) l dry_run w)
      as (n & Hposts & _).
    destruct (send_sms' message l (Some who) dry_run w) as [w' [t1 r1]];
      cbn [fst snd bind] in *.
    rewrite posts_app, Hquiet, Hposts; cbn [app].
    split.
    + rewrite <- firstn_map, map_map; cbn [make_request To].
      rewrite map_id.
      rewrite <- (firstn_skipn n l) in Hnd.
      now apply NoDup_app_remove_r in Hnd.
    + apply Forall_forall; intros req Hin.
      assert (Hin' : In req (map (make_request' message (Some who)) l)).
      { rewrite <- (firstn_skipn n (map (make_request' message (Some who)) l)).
        apply in_or_app; now left. }
      apply in_map_iff in Hin' as (r & <- & _); reflexivity.
  - cbn [bind print fst snd]; rewrite posts_app, Hquiet.
    split; constructor.
Qed.

(** *** What leaves [run] *)







End OrchestratorMore.

(** ** Closed instances of the further properties *)


(** The column read from the workbook, and what a blank header cell
    before the header, or a blank cell in the column, leads to. *)
Example first_column_read :
  Demo.read Demo.book_first_column (Some Demo.path) =
  ([], Return (Some [VStr Demo.alice; VStr Demo.bob])).
Proof. reflexivity. Qed.

Example blank_header_stops_search :
  find_recipient_data Demo.book_blank_header = ([], Raise AttributeError) /\
  Demo.read Demo.book_blank_header (Some Demo.path) =
  ([UnanticipatedError], Return None).
Proof. split; reflexivity. Qed.

Example blank_cell_read :
  Demo.read Demo.book_blank_cell (Some Demo.path) =
  ([], Return (Some [VStr Demo.alice; VNone])).
Proof. reflexivity. Qed.

Example blank_cell_raises :
  Demo.run_with Demo.post_status Demo.book_blank_cell Demo.hello None
    (Some Demo.path) None true 0%nat =
  (0%nat,
   ([UsingSender Demo.sender; SingleMessage "gsm7"], Raise AttributeError)).
Proof. reflexivity. Qed.

Lemma run_unloadable_file_witness :
  Demo.run_loading Demo.load_missing Demo.hello
    (Some (map VStr Demo.batch)) (Some Demo.path) None false 0%nat =
  (0%nat,
   (UsingSender Demo.sender :: fst (clean_message Demo.hello false)
      ++ [UnexpectedFileErrors],
    Return tt)).
Proof.
  refine (proj2 (proj2 (proj2
    (run_unloadable_file Demo.World Demo.post_status Demo.PhoneNumber
       Demo.parse Demo.valid Demo.format Demo.load_missing Demo.sender
       Demo.token Demo.hello (Some (map VStr Demo.batch)) Demo.path
       (LibraryError "FileNotFoundError") None false 0%nat _ _)))).
  - vm_compute; discriminate.
  - reflexivity.
Defined.

Lemma run_without_recipients_witness :
  Demo.run_with Demo.post_status Demo.book_first_column Demo.hello
    (Some []) None None true 0%nat =
  (0%nat,
   (UsingSender Demo.sender :: fst (clean_message Demo.hello true)
      ++ [NothingToDo],
    Return tt)).
Proof.
  exact (run_without_recipients Demo.World Demo.post_status Demo.PhoneNumber
           Demo.parse Demo.valid Demo.format
           (Demo.load Demo.book_first_column) Demo.sender Demo.token
           Demo.hello (Some []) None None true 0%nat eq_refl eq_refl).
Defined.

Lemma clean_phone_numbers_success_witness :
  exists cleaned : set str,
    clean_phone_numbers Demo.PhoneNumber Demo.parse Demo.valid Demo.format
      (map VStr [Demo.alice; Demo.bob; Demo.alice]) = ([], Return cleaned) /\
    NoDup cleaned /\
    forall x : str,
      In x cleaned <->
      exists num p,
        In num [Demo.alice; Demo.bob; Demo.alice] /\
        Demo.parse (strip_LRO num) = Some p /\ Demo.format p = x.
Proof.
  apply (clean_phone_numbers_success Demo.PhoneNumber Demo.parse Demo.valid
           Demo.format [Demo.alice; Demo.bob; Demo.alice]).
  repeat constructor.
Defined.

(** [alice], listed twice, is kept once. *)
Example repeated_number_kept_once :
  clean_phone_numbers Demo.PhoneNumber Demo.parse Demo.valid Demo.format
    [VStr Demo.alice; VStr Demo.bob; VStr Demo.alice] =
  ([], Return [Demo.alice; Demo.bob]).
Proof. reflexivity. Qed.

